(** * Agent dispatch and completion polling: the two orchestrator scripts

  A shallow embedding of
    - [meta-ads-orchestrator/scripts/dispatch_agent.py]   (module [Meta])
    - [google-ads-orchestrator/scripts/dispatch_agent.py] (module [Google])
  and the properties of the dispatch / poll protocol that the
  specification states about them.

  Modelling conventions.
    - Time is a [Z] number of milliseconds, so [time.sleep(0.5)] is a
      sleep of [500] and [elapsed > timeout_seconds] compares against
      [1000 * timeout_seconds].
    - The outside world (the Supabase REST endpoint, the [ssh] client) is
      an oracle [world]: it fixes the answer and the duration of the k-th
      GET, the answer of the PATCH and the outcome of the k-th
      [subprocess.run].
    - Every interaction with the outside world is appended to a trace of
      [event]s, in program order; writes to stdout are not modelled.
    - A [while True] loop is run with fuel; [None] means the fuel ran out
      before the loop left. *)

From Stdlib Require Import ZArith String Ascii List Lia.
From stdpp Require Import base option gmap strings list pretty.

Open Scope string_scope.
Open Scope Z_scope.

(** ** The fragment of the Python runtime the scripts rely on *)

Module Py.

(** A JSON value held in a column of [agent_deliverables] that the poller
    reads: text and timestamp columns arrive as a string or as [null]. *)
Inductive pyval : Type :=
| PNone
| PStr (s : string).

(** The exceptions that escape a [try] block of the scripts. *)
Inductive exn : Type :=
| TypeError
| ValueError.

(** [str(v)], as an f-string renders a value. *)
Definition str (v : pyval) : string :=
  match v with
  | PNone => "None"
  | PStr s => s
  end.

(** [s[:n]] on a string. *)
Definition slice_to (n : nat) (s : string) : string := String.substring 0 n s.

(** [a or b] on strings. *)
Definition str_or (a b : string) : string :=
  match a with
  | EmptyString => b
  | _ => a
  end.

(** [needle in haystack] on strings. *)
Fixpoint contains (needle haystack : string) : bool :=
  String.prefix needle haystack ||
  match haystack with
  | EmptyString => false
  | String _ rest => contains needle rest
  end.

(** [v[:n]]: slicing [None] raises [TypeError]. *)
Definition subscript_to (n : nat) (v : pyval) : exn + string :=
  match v with
  | PNone => inl TypeError
  | PStr s => inr (slice_to n s)
  end.

(** [d.get(k, dflt)] on a JSON object. *)
Definition dict_get (d : gmap string pyval) (k : string) (dflt : pyval) : pyval :=
  default dflt (d !! k).

(** [v == "lit"]. *)
Definition eq_str (v : pyval) (lit : string) : bool :=
  match v with
  | PNone => false
  | PStr s => String.eqb s lit
  end.

End Py.

(** ** The outside world and the effects of a run *)

Module Env.
Import Py.

(** What [requests.get(...)] followed by [response.json()] can produce.
    [GetRaises] stands for any exception raised inside the [try] block
    (connection error, timeout, a body that is not a JSON list). *)
Inductive http_get : Type :=
| GetRaises
| GetResponse (status_code : Z) (data : list (gmap string pyval)).

(** What [requests.patch(...)] can produce. *)
Inductive http_patch : Type :=
| PatchRaises (msg : string)
| PatchResponse (status_code : Z).

(** What [subprocess.run(cmd, capture_output=True, text=True, timeout=...)]
    can produce. *)
Inductive run_result : Type :=
| Completed (returncode : Z) (stdout stderr : string)
| TimeoutExpired
| FileNotFoundError
| OtherException (msg : string).

Record world : Type := mkWorld {
  w_patch : http_patch;
  w_ssh : nat -> run_result;
  w_get : nat -> http_get;
  w_get_cost : nat -> Z
}.

Inductive event : Type :=
| EvPatch (task_id status : string)
| EvSsh (target command : string)
| EvGet (task_id : string)
| EvSleep (ms : Z).

Record state : Type := mkState {
  now : Z;
  gets : nat;
  sshs : nat;
  trace : list event
}.

Definition initial : state := mkState 0 0 0 [].

Inductive outcome (A : Type) : Type :=
| Ret (a : A)
| Raise (e : exn).
Arguments Ret {A} a.
Arguments Raise {A} e.

(** State, exceptions and possible divergence ([None]). *)
Definition M (A : Type) : Type := state -> option (outcome A * state).

Definition ret {A} (a : A) : M A := fun s => Some (Ret a, s).

Definition raise {A} (e : exn) : M A := fun s => Some (Raise e, s).

Definition bind {A B} (m : M A) (k : A -> M B) : M B :=
  fun s =>
    match m s with
    | None => None
    | Some (Raise e, s') => Some (Raise e, s')
    | Some (Ret a, s') => k a s'
    end.

Definition log (e : event) (s : state) : state :=
  mkState (now s) (gets s) (sshs s) (trace s ++ [e]).

(** [time.time()], relative to the start of the run. *)
Definition time_time : M Z := fun s => Some (Ret (now s), s).

(** [time.sleep(ms / 1000)]; a negative argument raises [ValueError]. *)
Definition after_sleep (ms : Z) (s : state) : state :=
  mkState (now s + ms) (gets s) (sshs s) (trace s ++ [EvSleep ms]).

Definition time_sleep (ms : Z) : M unit :=
  fun s => if ms <? 0 then Some (Raise ValueError, s) else Some (Ret tt, after_sleep ms s).

(** The state once the next GET has come back. *)
Definition after_get (w : world) (task_id : string) (s : state) : state :=
  mkState (now s + w_get_cost w (gets s)) (S (gets s)) (sshs s) (trace s ++ [EvGet task_id]).

Definition requests_get (w : world) (task_id : string) : M http_get :=
  fun s => Some (Ret (w_get w (gets s)), after_get w task_id s).

Definition requests_patch (w : world) (task_id status : string) : M http_patch :=
  fun s => Some (Ret (w_patch w), log (EvPatch task_id status) s).

Definition subprocess_run_ssh (w : world) (target command : string) : M run_result :=
  fun s =>
    Some (Ret (w_ssh w (sshs s)),
          mkState (now s) (gets s) (S (sshs s)) (trace s ++ [EvSsh target command])).

Definition is_write (e : event) : bool :=
  match e with
  | EvPatch _ _ => true
  | _ => false
  end.

Definition is_trigger (e : event) : bool :=
  match e with
  | EvSsh _ _ => true
  | _ => false
  end.

Definition is_read (e : event) : bool :=
  match e with
  | EvGet _ => true
  | _ => false
  end.

Definition is_sleep (e : event) : bool :=
  match e with
  | EvSleep _ => true
  | _ => false
  end.

(** [subprocess.run] came back with return code 0. *)
Definition exit_ok (r : run_result) : bool :=
  match r with
  | Completed returncode _ _ => returncode =? 0
  | _ => false
  end.

(** The test of [test_ssh_connection] on what [subprocess.run] produced. *)
Definition connection_ok (r : run_result) : bool :=
  match r with
  | Completed returncode stdout _ => (returncode =? 0) && contains "CONNECTION_OK" stdout
  | _ => false
  end.

(** The state once [evs] have happened, [dt] later, after [n] more ssh runs. *)
Definition advance (dt : Z) (n : nat) (evs : list event) (s : state) : state :=
  mkState (now s + dt) (gets s) (sshs s + n) (trace s ++ evs).

(** How many times a trace runs ssh. *)
Definition attempts (tr : list event) : nat := length (List.filter is_trigger tr).

(** The events of the polling phase. *)
Definition is_poll_event (e : event) : bool := is_read e || is_sleep e.

(** The same world with another answer to the PATCH. *)
Definition with_patch (p : http_patch) (w : world) : world :=
  mkWorld p (w_ssh w) (w_get w) (w_get_cost w).

Inductive loop_ctl (A : Type) : Type :=
| Break (a : A)
| Continue.
Arguments Break {A} a.
Arguments Continue {A}.

(** [while True: body], where [body] sees the loop-carried counter. *)
Fixpoint while_true {A} (fuel : nat) (body : Z -> M (loop_ctl A)) (count : Z) : M A :=
  fun s =>
    match fuel with
    | O => None
    | S fuel' =>
        match body count s with
        | None => None
        | Some (Raise e, s') => Some (Raise e, s')
        | Some (Ret (Break a), s') => Some (Ret a, s')
        | Some (Ret Continue, s') => while_true fuel' body (count + 1) s'
        end
    end.

End Env.

Declare Scope dispatch_scope.
Notation "'let*' x ':=' m 'in' k" := (Env.bind m (fun x => k))
  (at level 10, x name, m at level 200, k at level 200) : dispatch_scope.
Notation "'do*' m 'in' k" := (Env.bind m (fun _ => k))
  (at level 10, m at level 200, k at level 200) : dispatch_scope.
Open Scope dispatch_scope.

(** ** meta-ads-orchestrator/scripts/dispatch_agent.py *)

Module Meta.
Import Py Env.

Definition AGENT_SKILL_MAP : gmap string string :=
  list_to_map
    [ ("data_placement", "meta-ads-data-placement-analyst");
      ("creative_analyst", "meta-ads-creative-analyst");
      ("post_click", "meta-ads-postclick-analyst");
      ("competitive_intel", "meta-ads-competitive-intel");
      ("creative_producer", "meta-ads-creative-producer");
      ("campaign_creator", "meta-ads-campaign-creator");
      ("campaign_monitor", "meta-ads-campaign-monitor") ].

(** What [get_deliverable_status] makes of the answer to its GET: the
    first row of a 200 answer, and [None] for anything else, every failure
    being folded into [None] by the [except Exception] clause. *)
Definition deliverable_of (response : http_get) : option (gmap string pyval) :=
  match response with
  | GetRaises => None
  | GetResponse status_code data =>
      if status_code =? 200 then
        match data with
        | d :: _ => Some d
        | [] => None
        end
      else None
  end.

Definition get_deliverable_status (w : world) (task_id : string)
  : M (option (gmap string pyval)) :=
  let* response := requests_get w task_id in
  ret (deliverable_of response).

(** [update_deliverable_to_in_progress]. *)
Definition update_deliverable_to_in_progress (w : world) (task_id : string) : M bool :=
  let* response := requests_patch w task_id "IN_PROGRESS" in
  match response with
  | PatchRaises _ => ret false
  | PatchResponse status_code => ret ((status_code =? 200) || (status_code =? 204))
  end.

(** The remote command line built in [trigger_agent_ssh]. *)
Definition openclaw_run (skill_name cycle_id task_id brand_id : string) : string :=
  "openclaw run " +:+ skill_name +:+ " --cycle " +:+ cycle_id +:+
  " --task " +:+ task_id +:+ " --brand " +:+ brand_id.

(** [trigger_agent_ssh]. *)
Definition trigger_agent_ssh (w : world) (agent_name cycle_id task_id brand_id host : string)
  : M (bool * string) :=
  match AGENT_SKILL_MAP !! agent_name with
  | None => ret (false, "Unknown agent: " +:+ agent_name)
  | Some skill_name =>
      let* result := subprocess_run_ssh w host
                       (openclaw_run skill_name cycle_id task_id brand_id) in
      match result with
      | Completed returncode stdout stderr =>
          if returncode =? 0 then
            ret (true, "Agent " +:+ agent_name +:+ " triggered successfully")
          else
            ret (false, "SSH failed: " +:+ slice_to 200 (str_or stderr stdout))
      | TimeoutExpired => ret (false, "SSH to " +:+ host +:+ " timed out (>30s)")
      | FileNotFoundError => ret (false, "SSH client not found on this machine")
      | OtherException msg => ret (false, "SSH trigger failed: " +:+ slice_to 100 msg)
      end
  end.

Definition NOT_FOUND_MSG : string := "Task not found in database (possible SSH failure)".

Definition timeout_msg (timeout_seconds poll_count : Z) : string :=
  "Agent did not complete within " +:+ pretty timeout_seconds +:+ "s (" +:+
  pretty poll_count +:+ " polls)".

(** [not deliverable]: [None] and the empty object are both falsy. *)
Definition falsy (deliverable : option (gmap string pyval)) : bool :=
  match deliverable with
  | None => true
  | Some d => bool_decide (d = ∅)
  end.

(** One pass through the body of the [while True] of
    [poll_for_completion]; [poll_count] is the counter before its
    increment. *)
Definition poll_body (w : world) (task_id : string)
    (timeout_seconds poll_interval start_time : Z) (poll_count : Z)
  : M (loop_ctl (string * string)) :=
  let* t := time_time in
  let elapsed := t - start_time in
  let poll_count := poll_count + 1 in
  if 1000 * timeout_seconds <? elapsed then
    ret (Break ("TIMEOUT", timeout_msg timeout_seconds poll_count))
  else
    let* deliverable := get_deliverable_status w task_id in
    if falsy deliverable then
      if 30000 <? elapsed then ret (Break ("TIMEOUT", NOT_FOUND_MSG))
      else do* time_sleep (1000 * poll_interval) in ret Continue
    else
      let d := default ∅ deliverable in
      let status := dict_get d "status" (PStr "UNKNOWN") in
      if eq_str status "DELIVERED" then
        let summary := dict_get d "summary" (PStr "[no summary]") in
        let delivered_at := dict_get d "delivered_at" (PStr "") in
        match subscript_to 200 summary with
        | inl e => raise e
        | inr s200 =>
            ret (Break ("DELIVERED",
                        "Completed at " +:+ str delivered_at +:+ ". Summary: " +:+ s200))
        end
      else if eq_str status "BLOCKED" then
        let blocked_reason := dict_get d "blocked_reason" (PStr "Unknown reason") in
        ret (Break ("BLOCKED", "Agent blocked: " +:+ str blocked_reason))
      else if eq_str status "IN_PROGRESS" then
        do* time_sleep (1000 * poll_interval) in ret Continue
      else if eq_str status "PENDING" then
        do* time_sleep (1000 * poll_interval) in ret Continue
      else
        do* time_sleep (1000 * poll_interval) in ret Continue.

(** [poll_for_completion]. *)
Definition poll_for_completion (fuel : nat) (w : world) (task_id : string)
    (timeout_seconds poll_interval : Z) : M (string * string) :=
  let* start_time := time_time in
  while_true fuel (poll_body w task_id timeout_seconds poll_interval start_time) 0.

(** The exit code chosen in step 4 of [dispatch_and_monitor]. *)
Definition report (status : string) : Z :=
  if String.eqb status "DELIVERED" then 0
  else if String.eqb status "BLOCKED" then 2
  else if String.eqb status "TIMEOUT" then 1
  else 1.

(** [dispatch_and_monitor]; the poll interval is the default [5] of
    [poll_for_completion]. *)
Definition dispatch_and_monitor (fuel : nat) (w : world)
    (agent_name cycle_id task_id brand_id host : string) (timeout_seconds : Z) : M Z :=
  do* update_deliverable_to_in_progress w task_id in
  do* time_sleep 500 in
  let* sm := trigger_agent_ssh w agent_name cycle_id task_id brand_id host in
  let '(success, message) := sm in
  if negb success then ret 1
  else
    let* r := poll_for_completion fuel w task_id timeout_seconds 5 in
    let '(status, summary) := r in
    ret (report status).

End Meta.


(** ** google-ads-orchestrator/scripts/dispatch_agent.py *)

Module Google.
Import Py Env.

Definition AGENT_NAMES : gmap string string :=
  list_to_map
    [ ("data-placement", "google-ads-data-placement-analyst");
      ("creative-analyst", "google-ads-creative-analyst");
      ("post-click", "google-ads-postclick-analyst");
      ("competitive-intel", "google-ads-competitive-intel");
      ("creative-producer", "google-ads-creative-producer");
      ("campaign-creator", "google-ads-campaign-creator");
      ("campaign-monitor", "google-ads-campaign-monitor") ].

(** The attributes of an [AgentDispatcher]; [start_time] and [end_time]
    only feed the printed summary and are left out. *)
Record AgentDispatcher : Type := mkDispatcher {
  machine_b_host : string;
  machine_b_user : string;
  agent : string;
  cycle_id : string;
  task_id : string;
  brand_id : string;
  timeout : Z;
  poll_interval : Z;
  agent_full : string
}.

(** [__init__]: a short name is replaced by its full name, any other name
    is kept as it is. *)
Definition init (machine_b_host machine_b_user agent cycle_id task_id brand_id : string)
    (timeout poll_interval : Z) : AgentDispatcher :=
  mkDispatcher machine_b_host machine_b_user agent cycle_id task_id brand_id
    timeout poll_interval
    (match AGENT_NAMES !! agent with
     | Some full => full
     | None => agent
     end).

(** [not s] on a string. *)
Definition str_falsy (s : string) : bool :=
  match s with
  | EmptyString => true
  | _ => false
  end.

Section Validation.

(** [uuid_parses s] holds when [uuid.UUID(s)] of the Python standard
    library returns instead of raising [ValueError]. *)
Variable uuid_parses : string -> bool.

(** [validate_inputs]: the loop over the three identifiers leaves at the
    first one that does not parse. *)
Definition validate_inputs (self : AgentDispatcher) : bool :=
  if negb (forallb uuid_parses [cycle_id self; task_id self; brand_id self]) then false
  else if str_falsy (agent_full self) then false
  else if timeout self <? 60 then false
  else true.

(** [f"{self.machine_b_user}@{self.machine_b_host}"]. *)
Definition ssh_target (self : AgentDispatcher) : string :=
  machine_b_user self +:+ "@" +:+ machine_b_host self.

(** The remote command line built in [trigger_agent]. *)
Definition openclaw_run (self : AgentDispatcher) : string :=
  "openclaw run " +:+ agent_full self +:+ " --cycle " +:+ cycle_id self +:+
  " --task " +:+ task_id self +:+ " --brand " +:+ brand_id self.

(** [test_ssh_connection]. *)
Definition test_ssh_connection (w : world) (self : AgentDispatcher) : M bool :=
  let* result := subprocess_run_ssh w (ssh_target self) "echo CONNECTION_OK" in
  match result with
  | Completed returncode stdout stderr =>
      if (returncode =? 0) && contains "CONNECTION_OK" stdout then ret true else ret false
  | TimeoutExpired => ret false
  | FileNotFoundError => ret false
  | OtherException _ => ret false
  end.

(** [trigger_agent]. *)
Definition trigger_agent (w : world) (self : AgentDispatcher) : M bool :=
  let* result := subprocess_run_ssh w (ssh_target self) (openclaw_run self) in
  match result with
  | Completed returncode stdout stderr =>
      if returncode =? 0 then ret true else ret false
  | TimeoutExpired => ret false
  | FileNotFoundError => ret false
  | OtherException _ => ret false
  end.

(** [run]. *)
Definition run (w : world) (self : AgentDispatcher) : M bool :=
  if negb (validate_inputs self) then ret false
  else
    let* connected := test_ssh_connection w self in
    if negb connected then ret false
    else
      let* triggered := trigger_agent w self in
      if negb triggered then ret false
      else ret true.

(** [sys.exit(0 if success else 1)] in [main]. *)
Definition exit_code (success : bool) : Z := if success then 0 else 1.

End Validation.

(** A recogniser of the canonical textual form of a UUID, 8-4-4-4-12
    hexadecimal digits, which [uuid.UUID] accepts; it instantiates
    [uuid_parses] on concrete inputs. *)
Definition is_hex (c : ascii) : bool :=
  let n := nat_of_ascii c in
  ((48 <=? n) && (n <=? 57) || (65 <=? n) && (n <=? 70) || (97 <=? n) && (n <=? 102))%nat.

Fixpoint hex_run (n : nat) (s : string) : option string :=
  match n with
  | O => Some s
  | S n' =>
      match s with
      | String c rest => if is_hex c then hex_run n' rest else None
      | EmptyString => None
      end
  end.

Definition dash (s : string) : option string :=
  match s with
  | String "-" rest => Some rest
  | _ => None
  end.

Definition canonical_uuid (s : string) : bool :=
  match foldl (fun rest step => rest ≫= step) (Some s)
          [hex_run 8; dash; hex_run 4; dash; hex_run 4; dash; hex_run 4; dash; hex_run 12] with
  | Some EmptyString => true
  | _ => false
  end.

End Google.

(** ** Concrete worlds and inputs *)

Module Examples.
Import Py Env.

Definition record_of (fields : list (string * pyval)) : gmap string pyval :=
  list_to_map fields.

Definition uuid_a : string := "a1b2c3d4-e5f6-7890-abcd-ef1234567890".
Definition uuid_b : string := "a1b2c3d4-e5f6-7890-abcd-ef9876543210".
Definition uuid_c : string := "a1b2c3d4-e5f6-7890-abcd-efaabbccddee".

(** Every call succeeds and the record stays IN_PROGRESS. *)
Definition w_stalled : world :=
  mkWorld (PatchResponse 204)
          (fun _ => Completed 0 "" "")
          (fun _ => GetResponse 200 [record_of [("status", PStr "IN_PROGRESS")]])
          (fun _ => 0).

(** The trigger ssh is rejected by the remote side. *)
Definition w_rejected : world :=
  mkWorld (PatchResponse 204)
          (fun _ => Completed 1 "" "openclaw: unknown skill")
          (fun _ => GetRaises)
          (fun _ => 0).

(** The trigger ssh does not come back within 30 seconds. *)
Definition w_unreachable : world :=
  mkWorld (PatchResponse 204) (fun _ => TimeoutExpired) (fun _ => GetRaises) (fun _ => 0).

(** ssh answers the connection test, then the remote side rejects the
    trigger. *)
Definition w_google_rejected : world :=
  mkWorld (PatchResponse 204)
          (fun k => match k with
                    | O => Completed 0 ("CONNECTION_OK" +:+ String "010" EmptyString) ""
                    | _ => Completed 1 "" "openclaw: unknown skill"
                    end)
          (fun _ => GetRaises)
          (fun _ => 0).

(** ssh answers the connection test, then the trigger run times out. *)
Definition w_google_unreachable : world :=
  mkWorld (PatchResponse 204)
          (fun k => match k with
                    | O => Completed 0 ("CONNECTION_OK" +:+ String "010" EmptyString) ""
                    | _ => TimeoutExpired
                    end)
          (fun _ => GetRaises)
          (fun _ => 0).

(** Both ssh runs succeed. *)
Definition w_google_ok : world :=
  mkWorld (PatchResponse 204)
          (fun k => match k with
                    | O => Completed 0 ("CONNECTION_OK" +:+ String "010" EmptyString) ""
                    | _ => Completed 0 "" ""
                    end)
          (fun _ => GetRaises)
          (fun _ => 0).

Definition google_dispatcher : Google.AgentDispatcher :=
  Google.init "192.168.1.100" "agent-runner" "data-placement" uuid_a uuid_b uuid_c 1800 30.

(** The record is never visible; a read takes 200 ms. *)
Definition w_absent : world :=
  mkWorld (PatchResponse 204) (fun _ => Completed 0 "" "")
          (fun _ => GetResponse 200 []) (fun _ => 200).

(** The record stays IN_PROGRESS; a read takes 200 ms. *)
Definition w_in_progress : world :=
  mkWorld (PatchResponse 204) (fun _ => Completed 0 "" "")
          (fun _ => GetResponse 200 [record_of [("status", PStr "IN_PROGRESS")]])
          (fun _ => 200).

Definition blocked_record : gmap string pyval :=
  record_of [("status", PStr "BLOCKED");
             ("blocked_reason", PStr "waiting for creative assets");
             ("summary", PNone); ("delivered_at", PNone)].

(** The record is BLOCKED from the first read on. *)
Definition w_blocked : world :=
  mkWorld (PatchResponse 204) (fun _ => Completed 0 "" "")
          (fun _ => GetResponse 200 [blocked_record]) (fun _ => 200).

Definition delivered_record (summary : pyval) : gmap string pyval :=
  record_of [("status", PStr "DELIVERED");
             ("blocked_reason", PNone);
             ("summary", summary);
             ("delivered_at", PStr "2024-05-01T12:00:00Z")].

(** The record is DELIVERED from the first read on. *)
Definition delivered_with (summary : pyval) : world :=
  mkWorld (PatchResponse 204) (fun _ => Completed 0 "" "")
          (fun _ => GetResponse 200 [delivered_record summary]) (fun _ => 200).

Definition w_delivered : world := delivered_with (PStr "12 ad sets analysed").

(** The agent delivered and left the nullable summary column empty. *)
Definition w_null_summary : world := delivered_with PNone.

Fixpoint replicate_char (n : nat) (c : ascii) : string :=
  match n with
  | O => EmptyString
  | S n' => String c (replicate_char n' c)
  end.

(** A summary of 201 characters. *)
Definition long_summary : string := replicate_char 200 "a" +:+ "b".

Definition w_long_summary : world := delivered_with (PStr long_summary).

(** The PATCH is answered with a server error; everything else succeeds
    and the record stays IN_PROGRESS. *)
Definition w_patch_fails : world := with_patch (PatchResponse 500) w_stalled.

End Examples.

(** ** The rest of the two scripts: construction, entry points, runs of the loop *)

Module MetaCli.
Import Py Env.

(** [s.rstrip('/')]. *)
Fixpoint rstrip_slash (s : string) : string :=
  match s with
  | EmptyString => EmptyString
  | String c rest =>
      match rstrip_slash rest with
      | EmptyString => if Ascii.eqb c "/" then EmptyString else String c EmptyString
      | kept => String c kept
      end
  end.

(** The attributes that [AgentDispatcher.__init__] of the Meta script sets. *)
Record AgentDispatcher : Type := mkDispatcher {
  supabase_url : string;
  supabase_key : string;
  headers : gmap string string
}.

(** [__init__]. *)
Definition init (supabase_url supabase_key : string) : AgentDispatcher :=
  mkDispatcher (rstrip_slash supabase_url) supabase_key
    (list_to_map
       [ ("Authorization", "Bearer " +:+ supabase_key);
         ("Content-Type", "application/json");
         ("apikey", supabase_key);
         ("Prefer", "return=representation") ]).

(** The URL that [get_deliverable_status] and
    [update_deliverable_to_in_progress] both address. *)
Definition deliverable_url (self : AgentDispatcher) (task_id : string) : string :=
  supabase_url self +:+ "/rest/v1/agent_deliverables?id=eq." +:+ task_id.

(** [a or b] on values that are a string or [None]. *)
Definition opt_or (a b : option string) : option string :=
  match a with
  | Some (String _ _) => a
  | _ => b
  end.

(** [not a] on a value that is a string or [None]. *)
Definition opt_falsy (a : option string) : bool :=
  match a with
  | Some (String _ _) => false
  | _ => true
  end.

(** The arguments of [main] once argparse has typed them. *)
Record arguments : Type := mkArguments {
  arg_agent : string;
  arg_cycle : string;
  arg_task : string;
  arg_brand : string;
  arg_host : string;
  arg_supabase_url : option string;
  arg_supabase_key : option string;
  arg_timeout : Z
}.

Record environ : Type := mkEnviron {
  SUPABASE_URL : option string;
  SUPABASE_SERVICE_KEY : option string
}.

(** How [main] ends: [sys.exit(code)], or the error exit of argparse when
    [--agent] is not one of its [choices]. *)
Inductive exit_status : Type :=
| SysExit (code : Z)
| ArgparseError.

(** [main]. *)
Definition main (fuel : nat) (w : world) (args : arguments) (env : environ)
  : M exit_status :=
  if negb (bool_decide (is_Some (Meta.AGENT_SKILL_MAP !! arg_agent args))) then
    ret ArgparseError
  else
    let supabase_url := opt_or (arg_supabase_url args) (SUPABASE_URL env) in
    let supabase_key := opt_or (arg_supabase_key args) (SUPABASE_SERVICE_KEY env) in
    if opt_falsy supabase_url then ret (SysExit 1)
    else if opt_falsy supabase_key then ret (SysExit 1)
    else
      let* exit_code :=
        Meta.dispatch_and_monitor fuel w (arg_agent args) (arg_cycle args) (arg_task args)
          (arg_brand args) (arg_host args) (arg_timeout args) in
      ret (SysExit exit_code).

End MetaCli.

Module GoogleCli.
Import Py Env.

(** [get_agent_status_ssh]: the placeholder always answers [None]. *)
Definition get_agent_status_ssh (self : Google.AgentDispatcher) : option string := None.

(** [main] of the Google script, from the typed arguments on. *)
Definition main (uuid_parses : string -> bool) (w : world)
    (machine_b_host machine_b_user agent cycle_id task_id brand_id : string)
    (timeout poll_interval : Z) : M Z :=
  let dispatcher :=
    Google.init machine_b_host machine_b_user agent cycle_id task_id brand_id
      timeout poll_interval in
  let* success := Google.run uuid_parses w dispatcher in
  ret (if success then 0 else 1).

End GoogleCli.

(** Runs of the polling loop, pass by pass. *)
Module Passes.
Import Py Env.

(** The state after a pass that read and slept. *)
Definition wait_pass (w : world) (task_id : string) (poll_interval : Z) (s : state) : state :=
  after_sleep (1000 * poll_interval) (after_get w task_id s).

Fixpoint waits (w : world) (task_id : string) (poll_interval : Z) (k : nat) (s : state)
  : state :=
  match k with
  | O => s
  | S k' => waits w task_id poll_interval k' (wait_pass w task_id poll_interval s)
  end.

(** The time that [k] such passes take when the first of them reads at
    index [g]. *)
Fixpoint elapsed_before (w : world) (poll_interval : Z) (g k : nat) : Z :=
  match k with
  | O => 0
  | S k' => w_get_cost w g + 1000 * poll_interval + elapsed_before w poll_interval (S g) k'
  end.

(** The events of [k] such passes. *)
Fixpoint wait_events (task_id : string) (poll_interval : Z) (k : nat) : list event :=
  match k with
  | O => []
  | S k' => EvGet task_id :: EvSleep (1000 * poll_interval)
            :: wait_events task_id poll_interval k'
  end.

(** What a pass that starts [elapsed] milliseconds in sleeps on: no
    record while the thirty seconds last, or a record in any status other
    than DELIVERED and BLOCKED. *)
Definition keeps_waiting (deliverable : option (gmap string pyval)) (elapsed : Z) : bool :=
  if Meta.falsy deliverable then negb (30000 <? elapsed)
  else
    negb (eq_str (dict_get (default ∅ deliverable) "status" (PStr "UNKNOWN")) "DELIVERED") &&
    negb (eq_str (dict_get (default ∅ deliverable) "status" (PStr "UNKNOWN")) "BLOCKED").

End Passes.

(** Further worlds. *)
Module Scenarios.
Import Py Env.

(** The record is not visible at the first read, IN_PROGRESS at the next
    two and DELIVERED from the fourth on; a read takes 100 ms. *)
Definition w_appears : world :=
  mkWorld (PatchResponse 204) (fun _ => Completed 0 "" "")
          (fun k => match k with
                    | O => GetResponse 200 []
                    | 1%nat | 2%nat =>
                        GetResponse 200 [Examples.record_of [("status", PStr "IN_PROGRESS")]]
                    | _ => GetResponse 200
                             [Examples.delivered_record (PStr "12 ad sets analysed")]
                    end)
          (fun _ => 100).

(** The agent wrote a status that the poller does not know. *)
Definition w_failed : world :=
  mkWorld (PatchResponse 204) (fun _ => Completed 0 "" "")
          (fun _ => GetResponse 200 [Examples.record_of [("status", PStr "FAILED")]])
          (fun _ => 100).

(** The record is IN_PROGRESS at every read but the eighth, whose request
    fails; a read takes 100 ms. *)
Definition w_one_failed_read : world :=
  mkWorld (PatchResponse 204) (fun _ => Completed 0 "" "")
          (fun k => if (k =? 7)%nat then GetRaises
                    else GetResponse 200
                           [Examples.record_of [("status", PStr "IN_PROGRESS")]])
          (fun _ => 100).

(** Command lines and environments of the Meta script. *)
Definition args_env_url : MetaCli.arguments :=
  MetaCli.mkArguments "data_placement" Examples.uuid_a Examples.uuid_b Examples.uuid_c
    "192.168.1.100" None (Some "eyJhbGciOi") 3600.

Definition args_empty_url : MetaCli.arguments :=
  MetaCli.mkArguments "data_placement" Examples.uuid_a Examples.uuid_b Examples.uuid_c
    "192.168.1.100" (Some "") (Some "eyJhbGciOi") 3600.

Definition args_unknown_agent : MetaCli.arguments :=
  MetaCli.mkArguments "data-placement" Examples.uuid_a Examples.uuid_b Examples.uuid_c
    "192.168.1.100" (Some "https://project.supabase.co") (Some "eyJhbGciOi") 3600.

Definition env_with_url : MetaCli.environ :=
  MetaCli.mkEnviron (Some "https://project.supabase.co/") None.

Definition env_empty : MetaCli.environ := MetaCli.mkEnviron None None.

End Scenarios.

(** * Properties *)

Import Py Env.

(** ** The loop combinator *)

Section Loop.
Context {A : Type}.
Implicit Types (body : Z -> M (loop_ctl A)) (count : Z) (s : state).

Lemma while_true_S fuel body count s :
  while_true (S fuel) body count s =
    match body count s with
    | None => None
    | Some (Raise e, s') => Some (Raise e, s')
    | Some (Ret (Break a), s') => Some (Ret a, s')
    | Some (Ret Continue, s') => while_true fuel body (count + 1) s'
    end.
Proof. reflexivity. Qed.

(** More fuel never changes a result that was reached. *)
Lemma while_true_mono fuel fuel' body count s r :
  (fuel <= fuel')%nat ->
  while_true fuel body count s = Some r ->
  while_true fuel' body count s = Some r.
Proof.
  revert fuel' count s. induction fuel as [|fuel IH]; intros fuel' count s Hle Hrun.
  - discriminate.
  - destruct fuel' as [|fuel']; [lia|].
    rewrite while_true_S in *.
    destruct (body count s) as [[[[a|]|e] s1]|]; try assumption.
    apply IH; [lia|assumption].
Qed.

(** Partial correctness: an invariant [I] of the loop head and a
    postcondition [Q] of every way out. *)
Lemma while_true_inv (I : Z -> state -> Prop) (Q : outcome A -> state -> Prop) body :
  (forall count s r s', I count s -> body count s = Some (r, s') ->
     match r with
     | Raise e => Q (Raise e) s'
     | Ret (Break a) => Q (Ret a) s'
     | Ret Continue => I (count + 1) s'
     end) ->
  forall fuel count s r s',
    I count s -> while_true fuel body count s = Some (r, s') -> Q r s'.
Proof.
  intros Hbody fuel. induction fuel as [|fuel IH]; intros count s r s' HI Hrun.
  - discriminate.
  - rewrite while_true_S in Hrun.
    destruct (body count s) as [[r1 s1]|] eqn:Hb; [|discriminate].
    specialize (Hbody count s r1 s1 HI Hb).
    destruct r1 as [[a|]|e].
    + injection Hrun as <- <-. exact Hbody.
    + exact (IH _ _ _ _ Hbody Hrun).
    + injection Hrun as <- <-. exact Hbody.
Qed.

(** Total correctness: a variant [V] that every [Continue] lowers by at
    least [delta] and that is not negative when the body continues. *)
Lemma while_true_total (I : Z -> state -> Prop) (V : state -> Z) (delta : Z) body :
  0 < delta ->
  (forall count s, I count s ->
     exists r s', body count s = Some (r, s') /\
       (r = Ret Continue -> 0 <= V s /\ V s' <= V s - delta /\ I (count + 1) s')) ->
  forall fuel count s,
    I count s -> V s < Z.of_nat fuel * delta ->
    is_Some (while_true (S fuel) body count s).
Proof.
  intros Hdelta Hbody fuel. induction fuel as [|fuel IH]; intros count s HI HV.
  - rewrite while_true_S.
    destruct (Hbody count s HI) as (r & s' & -> & Hcont).
    destruct r as [[a|]|e]; eauto.
    destruct (Hcont eq_refl) as [Hpos _]. lia.
  - rewrite while_true_S.
    destruct (Hbody count s HI) as (r & s' & -> & Hcont).
    destruct r as [[a|]|e]; eauto.
    destruct (Hcont eq_refl) as (Hpos & Hdec & HI').
    apply IH; [assumption|lia].
Qed.

End Loop.

(** ** One pass of the polling loop *)

Ltac run_monad :=
  unfold Meta.poll_body, Meta.get_deliverable_status, Meta.update_deliverable_to_in_progress,
    Meta.trigger_agent_ssh, Meta.deliverable_of, bind, ret, raise, time_time, time_sleep,
    requests_get, after_get, after_sleep, requests_patch, subprocess_run_ssh, log in *; simpl in *.

Ltac split_all := repeat (case_match; simplify_eq; simpl in * ).

Lemma dict_get_some (d : gmap string pyval) (k : string) (v dflt : pyval) :
  d !! k = Some v -> dict_get d k dflt = v.
Proof. unfold dict_get. intros ->. reflexivity. Qed.

Section PollBody.
Context (w : world) (task_id : string) (timeout_seconds poll_interval start_time : Z).

Abbreviation body := (Meta.poll_body w task_id timeout_seconds poll_interval start_time).

Lemma poll_body_returns count s : exists r s', body count s = Some (r, s').
Proof. run_monad. split_all; eauto. Qed.

Lemma poll_body_trace count s r s' :
  body count s = Some (r, s') ->
  sshs s' = sshs s /\ exists tr, trace s' = (trace s ++ tr)%list /\ forallb is_poll_event tr = true.
Proof.
  intros H. run_monad. split_all; (split; [reflexivity|]).
  all: try (exists []; rewrite app_nil_r; split; reflexivity).
  all: try (eexists [_]; split; reflexivity).
  all: try (eexists [_; _]; rewrite <- app_assoc; split; reflexivity).
Qed.

Lemma poll_body_continue count s s' :
  body count s = Some (Ret Continue, s') ->
  now s - start_time <= 1000 * timeout_seconds /\
  0 <= poll_interval /\
  now s' = now s + w_get_cost w (gets s) + 1000 * poll_interval /\
  gets s' = S (gets s).
Proof.
  intros H. run_monad. split_all; repeat split; lia.
Qed.

(** The pass that finds the timeout exceeded: no read, no sleep. *)
Lemma poll_body_timeout count s :
  1000 * timeout_seconds < now s - start_time ->
  body count s = Some (Ret (Break ("TIMEOUT", Meta.timeout_msg timeout_seconds (count + 1))), s).
Proof.
  intros Hlt. apply Z.ltb_lt in Hlt. unfold Meta.poll_body, bind, time_time.
  rewrite Hlt. reflexivity.
Qed.

(** The pass that finds no record. *)
Lemma poll_body_absent count s :
  now s - start_time <= 1000 * timeout_seconds ->
  0 <= poll_interval ->
  Meta.falsy (Meta.deliverable_of (w_get w (gets s))) = true ->
  body count s =
    if 30000 <? now s - start_time then
      Some (Ret (Break ("TIMEOUT", Meta.NOT_FOUND_MSG)), after_get w task_id s)
    else
      Some (Ret Continue, after_sleep (1000 * poll_interval) (after_get w task_id s)).
Proof.
  intros Hle Hint Hfalsy. apply Z.ltb_ge in Hle.
  unfold Meta.poll_body, Meta.get_deliverable_status, bind, time_time, requests_get, ret,
    time_sleep.
  rewrite Hle, Hfalsy.
  destruct (30000 <? now s - start_time); [reflexivity|].
  assert ((1000 * poll_interval <? 0) = false) as -> by (apply Z.ltb_ge; lia).
  reflexivity.
Qed.

(** The pass that reads a record in a given status. *)
Lemma poll_body_found count s d :
  now s - start_time <= 1000 * timeout_seconds ->
  Meta.deliverable_of (w_get w (gets s)) = Some d ->
  is_Some (d !! "status") ->
  body count s =
    if eq_str (dict_get d "status" (PStr "UNKNOWN")) "DELIVERED" then
      match subscript_to 200 (dict_get d "summary" (PStr "[no summary]")) with
      | inl e => Some (Raise e, after_get w task_id s)
      | inr s200 =>
          Some (Ret (Break ("DELIVERED",
                            "Completed at " +:+ str (dict_get d "delivered_at" (PStr "")) +:+
                            ". Summary: " +:+ s200)),
                after_get w task_id s)
      end
    else if eq_str (dict_get d "status" (PStr "UNKNOWN")) "BLOCKED" then
      Some (Ret (Break ("BLOCKED",
                        "Agent blocked: " +:+
                        str (dict_get d "blocked_reason" (PStr "Unknown reason")))),
            after_get w task_id s)
    else if 1000 * poll_interval <? 0 then Some (Raise ValueError, after_get w task_id s)
    else Some (Ret Continue, after_sleep (1000 * poll_interval) (after_get w task_id s)).
Proof.
  intros Hle Hget [v Hstatus]. apply Z.ltb_ge in Hle.
  assert (Hne : Meta.falsy (Some d) = false).
  { apply bool_decide_eq_false. intros ->. rewrite lookup_empty in Hstatus. discriminate. }
  unfold Meta.poll_body, Meta.get_deliverable_status, bind, time_time, requests_get, ret,
    raise, time_sleep.
  rewrite Hle, Hget, Hne. simpl.
  generalize (dict_get d "status" (PStr "UNKNOWN")). intros status.
  destruct (eq_str status "DELIVERED").
  { destruct (subscript_to 200 (dict_get d "summary" (PStr "[no summary]"))); reflexivity. }
  destruct (eq_str status "BLOCKED"); [reflexivity|].
  destruct (eq_str status "IN_PROGRESS"), (eq_str status "PENDING"),
    (1000 * poll_interval <? 0); reflexivity.
Qed.

End PollBody.

(** ** The polling loop as a whole *)

Section Poll.
Context (w : world) (task_id : string) (timeout_seconds poll_interval : Z).

(** The polling phase only reads and sleeps. *)
Lemma poll_trace fuel s r s' :
  Meta.poll_for_completion fuel w task_id timeout_seconds poll_interval s = Some (r, s') ->
  sshs s' = sshs s /\
  exists tr, trace s' = (trace s ++ tr)%list /\ forallb is_poll_event tr = true.
Proof.
  unfold Meta.poll_for_completion, bind, time_time. intros Hrun.
  pose (I := fun (_ : Z) (s1 : state) =>
    sshs s1 = sshs s /\
    exists tr, trace s1 = (trace s ++ tr)%list /\ forallb is_poll_event tr = true).
  assert (Hinit : I 0 s).
  { split; [reflexivity|]. exists []. rewrite app_nil_r. split; reflexivity. }
  refine (while_true_inv I (fun _ s1 => I 0 s1) _ _ fuel 0 s r s' Hinit Hrun).
  intros count s1 r1 s2 (Hssh & tr & Htr & Hall) Hbody.
  apply poll_body_trace in Hbody as (Hssh2 & tr2 & Htr2 & Hall2).
  assert (I 0 s2) as HI2.
  { split; [congruence|]. exists (tr ++ tr2)%list. rewrite Htr2, Htr, app_assoc.
    split; [reflexivity|]. rewrite forallb_app, Hall, Hall2. reflexivity. }
  destruct r1 as [[a|]|e]; exact HI2.
Qed.

(** The only statuses the polling phase yields. *)
Lemma poll_status fuel s status summary s' :
  Meta.poll_for_completion fuel w task_id timeout_seconds poll_interval s
    = Some (Ret (status, summary), s') ->
  status = "DELIVERED" \/ status = "BLOCKED" \/ status = "TIMEOUT".
Proof.
  unfold Meta.poll_for_completion, bind, time_time. intros Hrun.
  refine (while_true_inv (fun _ _ => True)
            (fun r _ => match r with
                        | Ret (st, _) => st = "DELIVERED" \/ st = "BLOCKED" \/ st = "TIMEOUT"
                        | Raise _ => True
                        end) _ _ fuel 0 s (Ret (status, summary)) s' Logic.I Hrun).
  clear Hrun. intros count s1 r1 s2 _ Hbody.
  run_monad. split_all; auto.
Qed.

(** With a positive interval and reads that take no negative time, the
    loop leaves after at most [timeout_seconds + 2] passes. *)
Lemma poll_total s :
  (forall k, 0 <= w_get_cost w k) ->
  0 < poll_interval ->
  forall fuel, (Z.to_nat timeout_seconds + 2 <= fuel)%nat ->
  is_Some (Meta.poll_for_completion fuel w task_id timeout_seconds poll_interval s).
Proof.
  intros Hcost Hint fuel Hfuel.
  unfold Meta.poll_for_completion, bind, time_time.
  pose (V := fun s1 : state => 1000 * timeout_seconds - (now s1 - now s)).
  assert (Hrun : is_Some (while_true (S (Z.to_nat timeout_seconds + 1))
            (Meta.poll_body w task_id timeout_seconds poll_interval (now s)) 0 s)).
  { apply (while_true_total (fun _ _ => True) V (1000 * poll_interval)); [lia| |exact Logic.I|].
    - intros count s1 _.
      destruct (poll_body_returns w task_id timeout_seconds poll_interval (now s) count s1)
        as (r & s2 & Hb).
      exists r, s2. split; [assumption|]. intros ->.
      apply poll_body_continue in Hb as (Hle & _ & Hnow & Hgets).
      specialize (Hcost (gets s1)). unfold V. lia.
    - unfold V. nia. }
  destruct Hrun as [r Hr].
  exists r. eapply while_true_mono; [|exact Hr]. lia.
Qed.

End Poll.

(** ** The dispatch workflow, step by step *)

Arguments Meta.poll_for_completion : simpl never.

(** The states that steps 1 and 2 of the Meta workflow leave behind. *)
Abbreviation marked task_id s :=
  (advance 500 0 [EvPatch task_id "IN_PROGRESS"; EvSleep 500] s).
Abbreviation triggered skill cycle_id task_id brand_id host s :=
  (advance 500 1 [EvPatch task_id "IN_PROGRESS"; EvSleep 500;
                  EvSsh host (Meta.openclaw_run skill cycle_id task_id brand_id)] s).

Section Dispatch.
Context (w : world) (agent_name cycle_id task_id brand_id host : string) (timeout_seconds : Z).

Abbreviation dispatch fuel :=
  (Meta.dispatch_and_monitor fuel w agent_name cycle_id task_id brand_id host timeout_seconds).

Lemma dispatch_unfold fuel s :
  dispatch fuel s =
    match Meta.AGENT_SKILL_MAP !! agent_name with
    | None => Some (Ret 1, marked task_id s)
    | Some skill =>
        if exit_ok (w_ssh w (sshs s)) then
          match Meta.poll_for_completion fuel w task_id timeout_seconds 5
                  (triggered skill cycle_id task_id brand_id host s) with
          | None => None
          | Some (Raise e, s') => Some (Raise e, s')
          | Some (Ret r, s') => Some (Ret (Meta.report r.1), s')
          end
        else Some (Ret 1, triggered skill cycle_id task_id brand_id host s)
    end.
Proof.
  unfold Meta.dispatch_and_monitor, advance. run_monad.
  destruct (w_patch w) as [msg|code]; simpl;
    (destruct (Meta.AGENT_SKILL_MAP !! agent_name) as [skill|]; simpl;
     [| rewrite <- app_assoc, Nat.add_0_r; reflexivity]);
    rewrite <- !app_assoc, Nat.add_1_r; simpl;
    (destruct (w_ssh w (sshs s)) as [rc out err| | |m]; simpl; try reflexivity;
     destruct (rc =? 0); simpl; try reflexivity).
  all: destruct (Meta.poll_for_completion _ _ _ _ _ _) as [[[[st sm]|e] s']|]; reflexivity.
Qed.

(** What step 2 does from the state that step 1 leaves. *)
Lemma trigger_cases s :
  exists message,
    Meta.trigger_agent_ssh w agent_name cycle_id task_id brand_id host (marked task_id s)
    = match Meta.AGENT_SKILL_MAP !! agent_name with
      | None => Some (Ret (false, message), marked task_id s)
      | Some skill =>
          Some (Ret (exit_ok (w_ssh w (sshs s)), message),
                triggered skill cycle_id task_id brand_id host s)
      end.
Proof.
  unfold advance. run_monad. rewrite Nat.add_0_r, Nat.add_1_r.
  destruct (Meta.AGENT_SKILL_MAP !! agent_name) as [skill|]; [|eauto].
  simpl. rewrite <- app_assoc. simpl.
  destruct (w_ssh w (sshs s)) as [rc out err| | |m]; simpl; eauto.
  destruct (rc =? 0); eauto.
Qed.

(** With reads that take no negative time the workflow comes to an end. *)
Lemma dispatch_total s :
  (forall k, 0 <= w_get_cost w k) ->
  forall fuel, (Z.to_nat timeout_seconds + 2 <= fuel)%nat -> is_Some (dispatch fuel s).
Proof.
  intros Hcost fuel Hfuel. rewrite dispatch_unfold.
  destruct (Meta.AGENT_SKILL_MAP !! agent_name) as [skill|]; [|eauto].
  destruct (exit_ok (w_ssh w (sshs s))); [|eauto].
  destruct (poll_total w task_id timeout_seconds 5
              (triggered skill cycle_id task_id brand_id host s) Hcost ltac:(lia) fuel Hfuel)
    as [[[r|e] s'] ->]; eauto.
Qed.

(** Every run starts with the PATCH and the half-second pause; an ssh run,
    if any, comes next and once; all that follows are reads and sleeps. *)
Lemma dispatch_shape fuel s r s' :
  dispatch fuel s = Some (r, s') ->
  exists rest,
    trace s' = (trace s ++ EvPatch task_id "IN_PROGRESS" :: EvSleep 500 :: rest)%list /\
    ((Meta.AGENT_SKILL_MAP !! agent_name = None /\ rest = []) \/
     exists skill polls,
       Meta.AGENT_SKILL_MAP !! agent_name = Some skill /\
       rest = EvSsh host (Meta.openclaw_run skill cycle_id task_id brand_id) :: polls /\
       forallb is_poll_event polls = true /\
       (exit_ok (w_ssh w (sshs s)) = false -> polls = [])).
Proof.
  rewrite dispatch_unfold. intros Hrun.
  destruct (Meta.AGENT_SKILL_MAP !! agent_name) as [skill|] eqn:Hskill.
  - destruct (exit_ok (w_ssh w (sshs s))) eqn:Hok.
    + destruct (Meta.poll_for_completion _ _ _ _ _ _) as [[r1 s1]|] eqn:Hpoll; [|discriminate].
      apply poll_trace in Hpoll as (_ & polls & Htr & Hall).
      assert (s' = s1) as -> by (destruct r1; congruence).
      exists (EvSsh host (Meta.openclaw_run skill cycle_id task_id brand_id) :: polls).
      split.
      * rewrite Htr. simpl. rewrite <- app_assoc. reflexivity.
      * right. exists skill, polls. repeat split; [assumption|discriminate].
    + injection Hrun as <- <-. eexists. split; [reflexivity|].
      right. exists skill, []. repeat split.
  - injection Hrun as <- <-. exists []. split; [reflexivity|]. left. split; reflexivity.
Qed.

End Dispatch.

(** ** The workflow of the Google orchestrator, step by step *)

Section GoogleRun.
Context (uuid_parses : string -> bool) (w : world) (self : Google.AgentDispatcher).

Lemma run_unfold s :
  Google.run uuid_parses w self s =
    if negb (Google.validate_inputs uuid_parses self) then Some (Ret false, s)
    else if negb (connection_ok (w_ssh w (sshs s))) then
      Some (Ret false, advance 0 1 [EvSsh (Google.ssh_target self) "echo CONNECTION_OK"] s)
    else
      Some (Ret (exit_ok (w_ssh w (S (sshs s)))),
            advance 0 2 [EvSsh (Google.ssh_target self) "echo CONNECTION_OK";
                         EvSsh (Google.ssh_target self) (Google.openclaw_run self)] s).
Proof.
  unfold Google.run, Google.test_ssh_connection, Google.trigger_agent, advance, connection_ok,
    exit_ok.
  run_monad.
  destruct (Google.validate_inputs uuid_parses self); simpl; [|reflexivity].
  rewrite !Z.add_0_r, Nat.add_1_r.
  replace (sshs s + 2)%nat with (S (S (sshs s))) by lia.
  replace (trace s ++ [EvSsh (Google.ssh_target self) "echo CONNECTION_OK";
                       EvSsh (Google.ssh_target self) (Google.openclaw_run self)])%list
    with ((trace s ++ [EvSsh (Google.ssh_target self) "echo CONNECTION_OK"]) ++
          [EvSsh (Google.ssh_target self) (Google.openclaw_run self)])%list
    by (rewrite <- app_assoc; reflexivity).
  destruct (w_ssh w (sshs s)) as [rc out err| | |m]; simpl; try reflexivity.
  destruct ((rc =? 0) && contains "CONNECTION_OK" out); simpl; [|reflexivity].
  destruct (w_ssh w (S (sshs s))) as [rc2 out2 err2| | |m2]; simpl; try reflexivity.
  destruct (rc2 =? 0); reflexivity.
Qed.

End GoogleRun.

(** * The properties of the specification *)

(** ** Trigger failures *)

(** C3. When the trigger ssh comes back with a nonzero return code, the
    workflow stops with the failure result, whatever the fuel of the polling
    loop: the Meta orchestrator returns exit code 1 after the PATCH, the
    pause and exactly one ssh run, without a single read of the task record;
    the Google orchestrator returns [False] after its connection test and
    exactly one trigger run. *)
Theorem C3_rejected_trigger_skips_polling :
  (forall fuel w agent_name cycle_id task_id brand_id host timeout_seconds s skill rc out err,
     Meta.AGENT_SKILL_MAP !! agent_name = Some skill ->
     w_ssh w (sshs s) = Completed rc out err ->
     rc <> 0 ->
     exists s',
       Meta.dispatch_and_monitor fuel w agent_name cycle_id task_id brand_id host
         timeout_seconds s = Some (Ret 1, s') /\
       trace s' = (trace s ++
                   [EvPatch task_id "IN_PROGRESS"; EvSleep 500;
                    EvSsh host (Meta.openclaw_run skill cycle_id task_id brand_id)])%list /\
       gets s' = gets s /\
       sshs s' = (sshs s + 1)%nat) /\
  (forall uuid_parses w self s rc out err,
     Google.validate_inputs uuid_parses self = true ->
     connection_ok (w_ssh w (sshs s)) = true ->
     w_ssh w (S (sshs s)) = Completed rc out err ->
     rc <> 0 ->
     exists s',
       Google.run uuid_parses w self s = Some (Ret false, s') /\
       trace s' = (trace s ++ [EvSsh (Google.ssh_target self) "echo CONNECTION_OK";
                               EvSsh (Google.ssh_target self) (Google.openclaw_run self)])%list /\
       gets s' = gets s /\
       sshs s' = (sshs s + 2)%nat).
Proof.
  split.
  - intros fuel w agent_name cycle_id task_id brand_id host timeout_seconds s skill rc out err
      Hskill Hssh Hrc.
    rewrite dispatch_unfold, Hskill, Hssh. simpl.
    apply Z.eqb_neq in Hrc. rewrite Hrc.
    eexists. split; [reflexivity|]. simpl. repeat split.
  - intros uuid_parses w self s rc out err Hvalid Hconn Hssh Hrc.
    rewrite run_unfold, Hvalid, Hconn, Hssh. simpl.
    apply Z.eqb_neq in Hrc. rewrite Hrc.
    eexists. split; [reflexivity|]. simpl. repeat split.
Qed.

Lemma C3_rejected_trigger_witness :
  (exists s',
     Meta.dispatch_and_monitor 0%nat Examples.w_rejected "data_placement" Examples.uuid_a
       Examples.uuid_b Examples.uuid_c "192.168.1.100" 3600 initial = Some (Ret 1, s') /\
     trace s' = (trace initial ++
                 [EvPatch Examples.uuid_b "IN_PROGRESS"; EvSleep 500;
                  EvSsh "192.168.1.100"
                    (Meta.openclaw_run "meta-ads-data-placement-analyst" Examples.uuid_a
                       Examples.uuid_b Examples.uuid_c)])%list /\
     gets s' = gets initial /\
     sshs s' = (sshs initial + 1)%nat) /\
  (exists s',
     Google.run Google.canonical_uuid Examples.w_google_rejected Examples.google_dispatcher
       initial = Some (Ret false, s') /\
     trace s' = (trace initial ++
                 [EvSsh (Google.ssh_target Examples.google_dispatcher) "echo CONNECTION_OK";
                  EvSsh (Google.ssh_target Examples.google_dispatcher)
                    (Google.openclaw_run Examples.google_dispatcher)])%list /\
     gets s' = gets initial /\
     sshs s' = (sshs initial + 2)%nat).
Proof.
  split.
  - apply (proj1 C3_rejected_trigger_skips_polling 0%nat Examples.w_rejected "data_placement"
             Examples.uuid_a Examples.uuid_b Examples.uuid_c "192.168.1.100" 3600 initial
             "meta-ads-data-placement-analyst" 1 "" "openclaw: unknown skill");
      [vm_compute; reflexivity | reflexivity | lia].
  - apply (proj2 C3_rejected_trigger_skips_polling Google.canonical_uuid
             Examples.w_google_rejected Examples.google_dispatcher initial
             1 "" "openclaw: unknown skill");
      [vm_compute; reflexivity | vm_compute; reflexivity | reflexivity | lia].
Defined.

(** C8, as the scripts have it. No failure of the trigger is retried: when
    the ssh run fails in any way (timeout, missing client, any other
    exception, nonzero return code) the Meta orchestrator returns exit code 1
    right after that single run, and no run of it ever holds more than one
    ssh call; the Google orchestrator returns [False] after a single
    trigger run. *)
Theorem C8_trigger_attempted_once :
  (forall fuel w agent_name cycle_id task_id brand_id host timeout_seconds s skill,
     Meta.AGENT_SKILL_MAP !! agent_name = Some skill ->
     exit_ok (w_ssh w (sshs s)) = false ->
     Meta.dispatch_and_monitor fuel w agent_name cycle_id task_id brand_id host
       timeout_seconds s
     = Some (Ret 1,
             advance 500 1
               [EvPatch task_id "IN_PROGRESS"; EvSleep 500;
                EvSsh host (Meta.openclaw_run skill cycle_id task_id brand_id)] s)) /\
  (forall fuel w agent_name cycle_id task_id brand_id host timeout_seconds r s',
     Meta.dispatch_and_monitor fuel w agent_name cycle_id task_id brand_id host
       timeout_seconds initial = Some (r, s') ->
     (attempts (trace s') <= 1)%nat) /\
  (forall uuid_parses w self s,
     Google.validate_inputs uuid_parses self = true ->
     connection_ok (w_ssh w (sshs s)) = true ->
     exit_ok (w_ssh w (S (sshs s))) = false ->
     Google.run uuid_parses w self s
     = Some (Ret false,
             advance 0 2
               [EvSsh (Google.ssh_target self) "echo CONNECTION_OK";
                EvSsh (Google.ssh_target self) (Google.openclaw_run self)] s)).
Proof.
  split; [|split].
  - intros fuel w agent_name cycle_id task_id brand_id host timeout_seconds s skill Hskill Hfail.
    rewrite dispatch_unfold, Hskill, Hfail. reflexivity.
  - intros fuel w agent_name cycle_id task_id brand_id host timeout_seconds r s' Hrun.
    apply dispatch_shape in Hrun as (rest & -> & [[_ ->]|(skill & polls & _ & -> & Hall & _)]).
    + simpl. unfold attempts. simpl. lia.
    + unfold attempts. simpl.
      assert (List.filter is_trigger polls = []) as ->; [|simpl; lia].
      clear -Hall. induction polls as [|e polls IH]; [reflexivity|].
      simpl in Hall. apply andb_true_iff in Hall as [He Hall].
      simpl. destruct e; try discriminate; simpl; auto.
  - intros uuid_parses w self s Hvalid Hconn Hfail.
    rewrite run_unfold, Hvalid, Hconn, Hfail. reflexivity.
Qed.

Lemma C8_trigger_attempted_once_witness :
  Meta.dispatch_and_monitor 0%nat Examples.w_rejected "data_placement" Examples.uuid_a
    Examples.uuid_b Examples.uuid_c "192.168.1.100" 3600 initial
  = Some (Ret 1,
          advance 500 1
            [EvPatch Examples.uuid_b "IN_PROGRESS"; EvSleep 500;
             EvSsh "192.168.1.100"
               (Meta.openclaw_run "meta-ads-data-placement-analyst" Examples.uuid_a
                  Examples.uuid_b Examples.uuid_c)] initial) /\
  (attempts
     (trace (mkState 5500 1 1
               [EvPatch Examples.uuid_b "IN_PROGRESS"; EvSleep 500;
                EvSsh "192.168.1.100"
                  (Meta.openclaw_run "meta-ads-data-placement-analyst" Examples.uuid_a
                     Examples.uuid_b Examples.uuid_c);
                EvGet Examples.uuid_b; EvSleep 5000])) <= 1)%nat /\
  Google.run Google.canonical_uuid Examples.w_google_unreachable Examples.google_dispatcher
    initial
  = Some (Ret false,
          advance 0 2
            [EvSsh (Google.ssh_target Examples.google_dispatcher) "echo CONNECTION_OK";
             EvSsh (Google.ssh_target Examples.google_dispatcher)
               (Google.openclaw_run Examples.google_dispatcher)] initial).
Proof.
  split; [|split].
  - apply (proj1 C8_trigger_attempted_once 0%nat Examples.w_rejected "data_placement"
             Examples.uuid_a Examples.uuid_b Examples.uuid_c "192.168.1.100" 3600 initial
             "meta-ads-data-placement-analyst");
      [vm_compute; reflexivity | reflexivity].
  - apply (proj1 (proj2 C8_trigger_attempted_once) 2%nat Examples.w_stalled "data_placement"
             Examples.uuid_a Examples.uuid_b Examples.uuid_c "192.168.1.100" 1
             (Ret 1)).
    vm_compute. reflexivity.
  - apply (proj2 (proj2 C8_trigger_attempted_once) Google.canonical_uuid
             Examples.w_google_unreachable Examples.google_dispatcher initial);
      [vm_compute; reflexivity | vm_compute; reflexivity | reflexivity].
Defined.

(** C8 as stated fails: the trigger ssh times out (a connectivity failure)
    and the Meta orchestrator gives up with exit code 1 after that one run,
    with no second attempt and no backoff sleep. *)
Lemma C8_no_retry_counterexample :
  w_ssh Examples.w_unreachable 0%nat = TimeoutExpired /\
  exists s',
    Meta.dispatch_and_monitor 100%nat Examples.w_unreachable "data_placement" Examples.uuid_a
      Examples.uuid_b Examples.uuid_c "192.168.1.100" 3600 initial = Some (Ret 1, s') /\
    trace s' = [EvPatch Examples.uuid_b "IN_PROGRESS"; EvSleep 500;
                EvSsh "192.168.1.100"
                  (Meta.openclaw_run "meta-ads-data-placement-analyst" Examples.uuid_a
                     Examples.uuid_b Examples.uuid_c)] /\
    attempts (trace s') = 1%nat.
Proof.
  split; [reflexivity|]. eexists. split; [vm_compute; reflexivity|]. split; reflexivity.
Qed.

(** ** The order of the steps *)

(** C1, as the scripts have it. The Meta orchestrator does not validate:
    every run of [dispatch_and_monitor] that ends begins with the
    IN_PROGRESS write and the half-second pause, then holds at most one ssh
    run (none when the agent name is unknown), then only reads and sleeps
    (none when the ssh run failed); when the trigger succeeds its result is
    the exit code of the status that the polling phase yields; and with
    reads that take no negative time the run does end. The Google
    orchestrator validates, tests the connection and triggers: its runs hold
    ssh calls only, no write to the task record and no read of it, and
    return whether all three steps succeeded. *)
Theorem C1_workflow_order :
  (forall fuel w agent_name cycle_id task_id brand_id host timeout_seconds s r s',
     Meta.dispatch_and_monitor fuel w agent_name cycle_id task_id brand_id host
       timeout_seconds s = Some (r, s') ->
     exists rest,
       trace s' = (trace s ++ EvPatch task_id "IN_PROGRESS" :: EvSleep 500 :: rest)%list /\
       ((Meta.AGENT_SKILL_MAP !! agent_name = None /\ rest = []) \/
        exists skill polls,
          Meta.AGENT_SKILL_MAP !! agent_name = Some skill /\
          rest = EvSsh host (Meta.openclaw_run skill cycle_id task_id brand_id) :: polls /\
          forallb is_poll_event polls = true /\
          (exit_ok (w_ssh w (sshs s)) = false -> polls = []))) /\
  (forall fuel w agent_name cycle_id task_id brand_id host timeout_seconds s skill,
     Meta.AGENT_SKILL_MAP !! agent_name = Some skill ->
     exit_ok (w_ssh w (sshs s)) = true ->
     Meta.dispatch_and_monitor fuel w agent_name cycle_id task_id brand_id host
       timeout_seconds s
     = match Meta.poll_for_completion fuel w task_id timeout_seconds 5
               (triggered skill cycle_id task_id brand_id host s) with
       | None => None
       | Some (Raise e, s') => Some (Raise e, s')
       | Some (Ret r, s') => Some (Ret (Meta.report r.1), s')
       end) /\
  (forall w agent_name cycle_id task_id brand_id host timeout_seconds s fuel,
     (forall k, 0 <= w_get_cost w k) ->
     (Z.to_nat timeout_seconds + 2 <= fuel)%nat ->
     is_Some (Meta.dispatch_and_monitor fuel w agent_name cycle_id task_id brand_id host
                timeout_seconds s)) /\
  (forall uuid_parses w self s,
     exists tr,
       Google.run uuid_parses w self s
       = Some (Ret (Google.validate_inputs uuid_parses self &&
                    connection_ok (w_ssh w (sshs s)) &&
                    exit_ok (w_ssh w (S (sshs s)))),
               advance 0 (length tr) tr s) /\
       forallb is_trigger tr = true).
Proof.
  repeat split.
  - intros. eapply dispatch_shape; eassumption.
  - intros fuel w agent_name cycle_id task_id brand_id host timeout_seconds s skill Hskill Hok.
    rewrite dispatch_unfold, Hskill, Hok. reflexivity.
  - intros w agent_name cycle_id task_id brand_id host timeout_seconds s fuel Hcost Hfuel.
    apply dispatch_total; assumption.
  - intros uuid_parses w self s. rewrite run_unfold.
    destruct (Google.validate_inputs uuid_parses self); simpl.
    + destruct (connection_ok (w_ssh w (sshs s))); simpl.
      * eexists [_; _]. split; reflexivity.
      * eexists [_]. split; reflexivity.
    + exists []. split; [|reflexivity].
      unfold advance. simpl. rewrite Z.add_0_r, Nat.add_0_r, app_nil_r.
      destruct s; reflexivity.
Qed.

Lemma C1_workflow_order_witness :
  (exists rest,
     trace (mkState 15500 3 1
              [EvPatch Examples.uuid_b "IN_PROGRESS"; EvSleep 500;
               EvSsh "192.168.1.100"
                 (Meta.openclaw_run "meta-ads-data-placement-analyst" Examples.uuid_a
                    Examples.uuid_b Examples.uuid_c);
               EvGet Examples.uuid_b; EvSleep 5000; EvGet Examples.uuid_b; EvSleep 5000;
               EvGet Examples.uuid_b; EvSleep 5000])
     = (trace initial ++ EvPatch Examples.uuid_b "IN_PROGRESS" :: EvSleep 500 :: rest)%list /\
     ((Meta.AGENT_SKILL_MAP !! "data_placement" = None /\ rest = []) \/
      exists skill polls,
        Meta.AGENT_SKILL_MAP !! "data_placement" = Some skill /\
        rest = EvSsh "192.168.1.100"
                 (Meta.openclaw_run skill Examples.uuid_a Examples.uuid_b Examples.uuid_c)
               :: polls /\
        forallb is_poll_event polls = true /\
        (exit_ok (w_ssh Examples.w_stalled (sshs initial)) = false -> polls = []))) /\
  Meta.dispatch_and_monitor 5%nat Examples.w_stalled "data_placement" Examples.uuid_a
    Examples.uuid_b Examples.uuid_c "192.168.1.100" 10 initial
  = match Meta.poll_for_completion 5%nat Examples.w_stalled Examples.uuid_b 10 5
            (triggered "meta-ads-data-placement-analyst" Examples.uuid_a Examples.uuid_b
               Examples.uuid_c "192.168.1.100" initial) with
    | None => None
    | Some (Raise e, s') => Some (Raise e, s')
    | Some (Ret r, s') => Some (Ret (Meta.report r.1), s')
    end /\
  is_Some (Meta.dispatch_and_monitor 12%nat Examples.w_stalled "data_placement"
             Examples.uuid_a Examples.uuid_b Examples.uuid_c "192.168.1.100" 10 initial).
Proof.
  destruct C1_workflow_order as (Horder & Hresult & Htotal & _).
  split; [|split].
  - apply (Horder 5%nat Examples.w_stalled "data_placement" Examples.uuid_a Examples.uuid_b
             Examples.uuid_c "192.168.1.100" 10 initial (Ret 1)).
    vm_compute. reflexivity.
  - apply (Hresult 5%nat Examples.w_stalled "data_placement" Examples.uuid_a Examples.uuid_b
             Examples.uuid_c "192.168.1.100" 10 initial "meta-ads-data-placement-analyst");
      [vm_compute; reflexivity | reflexivity].
  - apply (Htotal Examples.w_stalled "data_placement" Examples.uuid_a Examples.uuid_b
             Examples.uuid_c "192.168.1.100" 10 initial 12%nat);
      [intros k; simpl; lia | simpl; lia].
Defined.

(** C1 as stated fails on the Google orchestrator: on a valid input whose
    trigger succeeds, the run holds the trigger call with no write of
    IN_PROGRESS before it, and no poll after it. *)
Lemma C1_google_no_write_counterexample :
  Google.validate_inputs Google.canonical_uuid Examples.google_dispatcher = true /\
  exists s',
    Google.run Google.canonical_uuid Examples.w_google_ok Examples.google_dispatcher initial
    = Some (Ret true, s') /\
    trace s' = [EvSsh "agent-runner@192.168.1.100" "echo CONNECTION_OK";
                EvSsh "agent-runner@192.168.1.100"
                  (Google.openclaw_run Examples.google_dispatcher)] /\
    existsb is_write (trace s') = false /\
    existsb is_read (trace s') = false.
Proof.
  split; [vm_compute; reflexivity|].
  eexists. split; [vm_compute; reflexivity|]. repeat split.
Qed.

(** ** Exit codes *)

(** C2, as the script has it. The Meta orchestrator exits 0 for DELIVERED
    and 2 for BLOCKED, and 1 both for TIMEOUT and for a failed trigger:
    whenever a run returns an exit code, either the trigger failed and the
    code is 1, or the polling phase yielded DELIVERED, BLOCKED or TIMEOUT
    and the code is 0, 2 or 1. *)
Theorem C2_exit_codes_of_outcomes :
  Meta.report "DELIVERED" = 0 /\
  Meta.report "BLOCKED" = 2 /\
  Meta.report "TIMEOUT" = 1 /\
  forall fuel w agent_name cycle_id task_id brand_id host timeout_seconds s code s',
    Meta.dispatch_and_monitor fuel w agent_name cycle_id task_id brand_id host
      timeout_seconds s = Some (Ret code, s') ->
    exists ok message s2,
      Meta.trigger_agent_ssh w agent_name cycle_id task_id brand_id host (marked task_id s)
      = Some (Ret (ok, message), s2) /\
      if ok then
        exists status summary,
          Meta.poll_for_completion fuel w task_id timeout_seconds 5 s2
          = Some (Ret (status, summary), s') /\
          ((status = "DELIVERED" /\ code = 0) \/
           (status = "BLOCKED" /\ code = 2) \/
           (status = "TIMEOUT" /\ code = 1))
      else code = 1 /\ s' = s2.
Proof.
  repeat split.
  intros fuel w agent_name cycle_id task_id brand_id host timeout_seconds s code s' Hrun.
  rewrite dispatch_unfold in Hrun.
  destruct (trigger_cases w agent_name cycle_id task_id brand_id host s) as [message Htrig].
  destruct (Meta.AGENT_SKILL_MAP !! agent_name) as [skill|].
  - exists (exit_ok (w_ssh w (sshs s))), message,
      (triggered skill cycle_id task_id brand_id host s).
    split; [exact Htrig|].
    destruct (exit_ok (w_ssh w (sshs s))).
    + destruct (Meta.poll_for_completion _ _ _ _ _ _) as [[[[status summary]|e] s1]|] eqn:Hpoll;
        try discriminate.
      injection Hrun as <- <-. exists status, summary. split; [reflexivity|].
      apply poll_status in Hpoll as [->|[->| ->]]; auto.
    + injection Hrun as <- <-. split; reflexivity.
  - exists false, message, (marked task_id s). split; [exact Htrig|].
    injection Hrun as <- <-. split; reflexivity.
Qed.

Lemma C2_exit_codes_witness :
  exists ok message s2,
    Meta.trigger_agent_ssh Examples.w_stalled "data_placement" Examples.uuid_a Examples.uuid_b
      Examples.uuid_c "192.168.1.100" (marked Examples.uuid_b initial)
    = Some (Ret (ok, message), s2) /\
    if ok then
      exists status summary,
        Meta.poll_for_completion 5%nat Examples.w_stalled Examples.uuid_b 10 5 s2
        = Some (Ret (status, summary),
                mkState 15500 3 1
                  [EvPatch Examples.uuid_b "IN_PROGRESS"; EvSleep 500;
                   EvSsh "192.168.1.100"
                     (Meta.openclaw_run "meta-ads-data-placement-analyst" Examples.uuid_a
                        Examples.uuid_b Examples.uuid_c);
                   EvGet Examples.uuid_b; EvSleep 5000; EvGet Examples.uuid_b; EvSleep 5000;
                   EvGet Examples.uuid_b; EvSleep 5000]) /\
        ((status = "DELIVERED" /\ 1 = 0) \/
         (status = "BLOCKED" /\ 1 = 2) \/
         (status = "TIMEOUT" /\ 1 = 1))
    else 1 = 1 /\
         mkState 15500 3 1
           [EvPatch Examples.uuid_b "IN_PROGRESS"; EvSleep 500;
            EvSsh "192.168.1.100"
              (Meta.openclaw_run "meta-ads-data-placement-analyst" Examples.uuid_a
                 Examples.uuid_b Examples.uuid_c);
            EvGet Examples.uuid_b; EvSleep 5000; EvGet Examples.uuid_b; EvSleep 5000;
            EvGet Examples.uuid_b; EvSleep 5000] = s2.
Proof.
  apply (proj2 (proj2 (proj2 C2_exit_codes_of_outcomes)) 5%nat Examples.w_stalled
           "data_placement" Examples.uuid_a Examples.uuid_b Examples.uuid_c "192.168.1.100" 10
           initial 1).
  vm_compute. reflexivity.
Defined.

(** C2 as stated fails: a run whose trigger ssh timed out and a run whose
    polling phase yielded TIMEOUT both end with exit code 1. *)
Lemma C2_shared_exit_code_counterexample :
  exists code message s_failed summary s_timeout,
    Meta.trigger_agent_ssh Examples.w_unreachable "data_placement" Examples.uuid_a
      Examples.uuid_b Examples.uuid_c "192.168.1.100" (marked Examples.uuid_b initial)
    = Some (Ret (false, message), s_failed) /\
    Meta.dispatch_and_monitor 5%nat Examples.w_unreachable "data_placement" Examples.uuid_a
      Examples.uuid_b Examples.uuid_c "192.168.1.100" 10 initial
    = Some (Ret code, s_failed) /\
    Meta.poll_for_completion 5%nat Examples.w_stalled Examples.uuid_b 10 5
      (triggered "meta-ads-data-placement-analyst" Examples.uuid_a Examples.uuid_b
         Examples.uuid_c "192.168.1.100" initial)
    = Some (Ret ("TIMEOUT", summary), s_timeout) /\
    Meta.dispatch_and_monitor 5%nat Examples.w_stalled "data_placement" Examples.uuid_a
      Examples.uuid_b Examples.uuid_c "192.168.1.100" 10 initial
    = Some (Ret code, s_timeout).
Proof.
  exists 1. do 4 eexists. repeat split; vm_compute; reflexivity.
Qed.

(** ** The unchecked write *)

(** C10. The answer to the IN_PROGRESS write has no influence on a run:
    with any other answer the workflow yields the same result and the same
    trace; in particular, when [update_deliverable_to_in_progress] returns
    [False] and the agent name is known, the trigger is still issued and,
    when it succeeds, the result is that of the polling phase. *)
Theorem C10_mark_in_progress_unchecked :
  (forall p fuel w agent_name cycle_id task_id brand_id host timeout_seconds s,
     Meta.dispatch_and_monitor fuel (with_patch p w) agent_name cycle_id task_id brand_id host
       timeout_seconds s
     = Meta.dispatch_and_monitor fuel w agent_name cycle_id task_id brand_id host
         timeout_seconds s) /\
  (forall fuel w agent_name cycle_id task_id brand_id host timeout_seconds s s1 skill,
     Meta.update_deliverable_to_in_progress w task_id s = Some (Ret false, s1) ->
     Meta.AGENT_SKILL_MAP !! agent_name = Some skill ->
     exit_ok (w_ssh w (sshs s)) = true ->
     Meta.dispatch_and_monitor fuel w agent_name cycle_id task_id brand_id host
       timeout_seconds s
     = match Meta.poll_for_completion fuel w task_id timeout_seconds 5
               (triggered skill cycle_id task_id brand_id host s) with
       | None => None
       | Some (Raise e, s') => Some (Raise e, s')
       | Some (Ret r, s') => Some (Ret (Meta.report r.1), s')
       end).
Proof.
  split.
  - intros. rewrite !dispatch_unfold. reflexivity.
  - intros fuel w agent_name cycle_id task_id brand_id host timeout_seconds s s1 skill _ Hskill Hok.
    rewrite dispatch_unfold, Hskill, Hok. reflexivity.
Qed.

Lemma C10_mark_in_progress_unchecked_witness :
  Meta.dispatch_and_monitor 5%nat Examples.w_patch_fails "data_placement" Examples.uuid_a
    Examples.uuid_b Examples.uuid_c "192.168.1.100" 10 initial
  = match Meta.poll_for_completion 5%nat Examples.w_patch_fails Examples.uuid_b 10 5
            (triggered "meta-ads-data-placement-analyst" Examples.uuid_a Examples.uuid_b
               Examples.uuid_c "192.168.1.100" initial) with
    | None => None
    | Some (Raise e, s') => Some (Raise e, s')
    | Some (Ret r, s') => Some (Ret (Meta.report r.1), s')
    end.
Proof.
  apply (proj2 C10_mark_in_progress_unchecked 5%nat Examples.w_patch_fails "data_placement"
           Examples.uuid_a Examples.uuid_b Examples.uuid_c "192.168.1.100" 10 initial
           (log (EvPatch Examples.uuid_b "IN_PROGRESS") initial)
           "meta-ads-data-placement-analyst");
    [reflexivity | vm_compute; reflexivity | reflexivity].
Defined.

(** ** The polling phase *)

Lemma poll_events_no_write (tr : list event) :
  forallb is_poll_event tr = true -> existsb is_write tr = false.
Proof.
  induction tr as [|e tr IH]; [reflexivity|]. simpl.
  intros [He Htr]%andb_true_iff. rewrite (IH Htr). destruct e; try discriminate; reflexivity.
Qed.

(** C5. When every read finds the record IN_PROGRESS or PENDING, the
    polling phase (positive interval, reads that take no negative time)
    comes back with TIMEOUT and the count of its passes, raises nothing, and
    its events are reads and sleeps only; a run of the Meta orchestrator
    whose trigger succeeded then ends with the exit code of TIMEOUT. More
    generally the only write to the task record in a run of the Meta
    orchestrator is its first event: nothing after it is a write. *)
Theorem C5_polling_only_reads :
  (forall w task_id timeout_seconds poll_interval s fuel,
     (forall k, 0 <= w_get_cost w k) ->
     0 < poll_interval ->
     (forall k, exists d,
        Meta.deliverable_of (w_get w k) = Some d /\
        (d !! "status" = Some (PStr "IN_PROGRESS") \/ d !! "status" = Some (PStr "PENDING"))) ->
     (Z.to_nat timeout_seconds + 2 <= fuel)%nat ->
     exists polls s' tr,
       Meta.poll_for_completion fuel w task_id timeout_seconds poll_interval s
       = Some (Ret ("TIMEOUT", Meta.timeout_msg timeout_seconds polls), s') /\
       trace s' = (trace s ++ tr)%list /\
       forallb is_poll_event tr = true /\
       existsb is_write tr = false) /\
  (forall w agent_name cycle_id task_id brand_id host timeout_seconds s fuel skill,
     (forall k, 0 <= w_get_cost w k) ->
     (forall k, exists d,
        Meta.deliverable_of (w_get w k) = Some d /\
        (d !! "status" = Some (PStr "IN_PROGRESS") \/ d !! "status" = Some (PStr "PENDING"))) ->
     Meta.AGENT_SKILL_MAP !! agent_name = Some skill ->
     exit_ok (w_ssh w (sshs s)) = true ->
     (Z.to_nat timeout_seconds + 2 <= fuel)%nat ->
     exists s',
       Meta.dispatch_and_monitor fuel w agent_name cycle_id task_id brand_id host
         timeout_seconds s = Some (Ret 1, s')) /\
  (forall fuel w agent_name cycle_id task_id brand_id host timeout_seconds s r s',
     Meta.dispatch_and_monitor fuel w agent_name cycle_id task_id brand_id host
       timeout_seconds s = Some (r, s') ->
     exists rest,
       trace s' = (trace s ++ EvPatch task_id "IN_PROGRESS" :: rest)%list /\
       existsb is_write rest = false).
Proof.
  assert (Hpoll : forall w task_id timeout_seconds poll_interval s fuel,
     (forall k, 0 <= w_get_cost w k) ->
     0 < poll_interval ->
     (forall k, exists d,
        Meta.deliverable_of (w_get w k) = Some d /\
        (d !! "status" = Some (PStr "IN_PROGRESS") \/ d !! "status" = Some (PStr "PENDING"))) ->
     (Z.to_nat timeout_seconds + 2 <= fuel)%nat ->
     exists polls s' tr,
       Meta.poll_for_completion fuel w task_id timeout_seconds poll_interval s
       = Some (Ret ("TIMEOUT", Meta.timeout_msg timeout_seconds polls), s') /\
       trace s' = (trace s ++ tr)%list /\
       forallb is_poll_event tr = true /\
       existsb is_write tr = false); [|split; [exact Hpoll|split]].
  - intros w task_id timeout_seconds poll_interval s fuel Hcost Hint Hreads Hfuel.
    destruct (poll_total w task_id timeout_seconds poll_interval s Hcost Hint fuel Hfuel)
      as [[r s'] Hrun].
    destruct (poll_trace _ _ _ _ _ _ _ _ Hrun) as (_ & tr & Htr & Hall).
    assert (Hres : exists polls, r = Ret ("TIMEOUT", Meta.timeout_msg timeout_seconds polls)).
    { revert Hrun. unfold Meta.poll_for_completion, bind, time_time.
      apply (while_true_inv (fun _ _ => True)
               (fun r _ => exists polls,
                  r = Ret ("TIMEOUT", Meta.timeout_msg timeout_seconds polls)));
        [|exact Logic.I].
      intros count s1 r1 s2 _ Hbody.
      destruct (Z_lt_le_dec (1000 * timeout_seconds) (now s1 - now s)) as [Hlt|Hle].
      - rewrite poll_body_timeout in Hbody by assumption.
        injection Hbody as <- <-. eauto.
      - destruct (Hreads (gets s1)) as (d & Hd & Hstatus).
        rewrite (poll_body_found _ _ _ _ _ _ _ d Hle Hd) in Hbody
          by (destruct Hstatus as [->| ->]; eauto).
        assert ((1000 * poll_interval <? 0) = false) as Hsleep by (apply Z.ltb_ge; lia).
        destruct Hstatus as [Hst|Hst];
          rewrite !(dict_get_some d "status" _ _ Hst), Hsleep in Hbody; simpl in Hbody;
          injection Hbody as <- <-; exact Logic.I. }
    destruct Hres as [polls ->].
    exists polls, s', tr. repeat split; try assumption.
    apply poll_events_no_write, Hall.
  - intros w agent_name cycle_id task_id brand_id host timeout_seconds s fuel skill
      Hcost Hreads Hskill Hok Hfuel.
    rewrite dispatch_unfold, Hskill, Hok.
    destruct (Hpoll w task_id timeout_seconds 5
                (triggered skill cycle_id task_id brand_id host s) fuel
                Hcost ltac:(lia) Hreads Hfuel) as (polls & s' & tr & -> & _).
    exists s'. reflexivity.
  - intros fuel w agent_name cycle_id task_id brand_id host timeout_seconds s r s' Hrun.
    apply dispatch_shape in Hrun as (rest & -> & [[_ ->]|(skill & polls & _ & -> & Hall & _)]).
    + eexists. split; reflexivity.
    + eexists. split; [reflexivity|]. simpl. apply poll_events_no_write, Hall.
Qed.

Lemma C5_polling_only_reads_witness :
  (exists polls s' tr,
     Meta.poll_for_completion 12%nat Examples.w_in_progress Examples.uuid_b 10 5 initial
     = Some (Ret ("TIMEOUT", Meta.timeout_msg 10 polls), s') /\
     trace s' = (trace initial ++ tr)%list /\
     forallb is_poll_event tr = true /\
     existsb is_write tr = false) /\
  (exists s',
     Meta.dispatch_and_monitor 12%nat Examples.w_in_progress "data_placement"
       Examples.uuid_a Examples.uuid_b Examples.uuid_c "192.168.1.100" 10 initial
     = Some (Ret 1, s')) /\
  (exists rest,
     trace (mkState 15500 3 1
              [EvPatch Examples.uuid_b "IN_PROGRESS"; EvSleep 500;
               EvSsh "192.168.1.100"
                 (Meta.openclaw_run "meta-ads-data-placement-analyst" Examples.uuid_a
                    Examples.uuid_b Examples.uuid_c);
               EvGet Examples.uuid_b; EvSleep 5000; EvGet Examples.uuid_b; EvSleep 5000;
               EvGet Examples.uuid_b; EvSleep 5000])
     = (trace initial ++ EvPatch Examples.uuid_b "IN_PROGRESS" :: rest)%list /\
     existsb is_write rest = false).
Proof.
  destruct C5_polling_only_reads as (Hpoll & Hdispatch & Hframe).
  split; [|split].
  - apply (Hpoll Examples.w_in_progress Examples.uuid_b 10 5 initial 12%nat).
    + intros k. simpl. lia.
    + lia.
    + intros k. eexists. split; [reflexivity|]. left. vm_compute. reflexivity.
    + simpl. lia.
  - apply (Hdispatch Examples.w_in_progress "data_placement" Examples.uuid_a Examples.uuid_b
             Examples.uuid_c "192.168.1.100" 10 initial 12%nat
             "meta-ads-data-placement-analyst").
    + intros k. simpl. lia.
    + intros k. eexists. split; [reflexivity|]. left. vm_compute. reflexivity.
    + vm_compute. reflexivity.
    + reflexivity.
    + simpl. lia.
  - apply (Hframe 5%nat Examples.w_stalled "data_placement"
             Examples.uuid_a Examples.uuid_b Examples.uuid_c "192.168.1.100" 10 initial
             (Ret 1)).
    vm_compute. reflexivity.
Defined.

(** C4, as the script has it. A pass of the polling loop that starts within
    the timeout and reads a BLOCKED record leaves the loop at once, after
    that one read and without a sleep, with the blocked reason in its
    message; the same holds for a DELIVERED record whose summary is a string
    (or missing), the message holding the delivered timestamp and the first
    200 characters of the summary. In particular a record that is BLOCKED at
    the first read ends the polling phase after that read. *)
Theorem C4_terminal_status_leaves_loop :
  (forall fuel w task_id timeout_seconds poll_interval start_time count s d,
     now s - start_time <= 1000 * timeout_seconds ->
     Meta.deliverable_of (w_get w (gets s)) = Some d ->
     d !! "status" = Some (PStr "BLOCKED") ->
     while_true (S fuel) (Meta.poll_body w task_id timeout_seconds poll_interval start_time)
       count s
     = Some (Ret ("BLOCKED",
                  "Agent blocked: " +:+ str (dict_get d "blocked_reason" (PStr "Unknown reason"))),
             after_get w task_id s)) /\
  (forall fuel w task_id timeout_seconds poll_interval start_time count s d summary,
     now s - start_time <= 1000 * timeout_seconds ->
     Meta.deliverable_of (w_get w (gets s)) = Some d ->
     d !! "status" = Some (PStr "DELIVERED") ->
     dict_get d "summary" (PStr "[no summary]") = PStr summary ->
     while_true (S fuel) (Meta.poll_body w task_id timeout_seconds poll_interval start_time)
       count s
     = Some (Ret ("DELIVERED",
                  "Completed at " +:+ str (dict_get d "delivered_at" (PStr "")) +:+
                  ". Summary: " +:+ slice_to 200 summary),
             after_get w task_id s)) /\
  (forall fuel w task_id timeout_seconds poll_interval s d,
     0 <= timeout_seconds ->
     Meta.deliverable_of (w_get w (gets s)) = Some d ->
     d !! "status" = Some (PStr "BLOCKED") ->
     Meta.poll_for_completion (S fuel) w task_id timeout_seconds poll_interval s
     = Some (Ret ("BLOCKED",
                  "Agent blocked: " +:+ str (dict_get d "blocked_reason" (PStr "Unknown reason"))),
             after_get w task_id s)).
Proof.
  assert (Hblocked : forall fuel w task_id timeout_seconds poll_interval start_time count s d,
     now s - start_time <= 1000 * timeout_seconds ->
     Meta.deliverable_of (w_get w (gets s)) = Some d ->
     d !! "status" = Some (PStr "BLOCKED") ->
     while_true (S fuel) (Meta.poll_body w task_id timeout_seconds poll_interval start_time)
       count s
     = Some (Ret ("BLOCKED",
                  "Agent blocked: " +:+ str (dict_get d "blocked_reason" (PStr "Unknown reason"))),
             after_get w task_id s)).
  { intros fuel w task_id timeout_seconds poll_interval start_time count s d Hle Hd Hst.
    rewrite while_true_S, (poll_body_found _ _ _ _ _ _ _ d Hle Hd) by eauto.
    rewrite !(dict_get_some d "status" _ _ Hst). reflexivity. }
  split; [exact Hblocked|split].
  - intros fuel w task_id timeout_seconds poll_interval start_time count s d summary
      Hle Hd Hst Hsum.
    rewrite while_true_S, (poll_body_found _ _ _ _ _ _ _ d Hle Hd) by eauto.
    rewrite !(dict_get_some d "status" _ _ Hst), Hsum. reflexivity.
  - intros fuel w task_id timeout_seconds poll_interval s d Hle Hd Hst.
    unfold Meta.poll_for_completion, bind, time_time.
    apply Hblocked; [lia|assumption..].
Qed.

Lemma C4_terminal_status_witness :
  while_true 1 (Meta.poll_body Examples.w_blocked Examples.uuid_b 3600 5 0) 0 initial
  = Some (Ret ("BLOCKED",
               "Agent blocked: " +:+
               str (dict_get Examples.blocked_record "blocked_reason" (PStr "Unknown reason"))),
          after_get Examples.w_blocked Examples.uuid_b initial) /\
  while_true 1 (Meta.poll_body Examples.w_delivered Examples.uuid_b 3600 5 0) 0 initial
  = Some (Ret ("DELIVERED",
               "Completed at " +:+
               str (dict_get (Examples.delivered_record (PStr "12 ad sets analysed"))
                      "delivered_at" (PStr "")) +:+
               ". Summary: " +:+ slice_to 200 "12 ad sets analysed"),
          after_get Examples.w_delivered Examples.uuid_b initial) /\
  Meta.poll_for_completion 1 Examples.w_blocked Examples.uuid_b 3600 5 initial
  = Some (Ret ("BLOCKED",
               "Agent blocked: " +:+
               str (dict_get Examples.blocked_record "blocked_reason" (PStr "Unknown reason"))),
          after_get Examples.w_blocked Examples.uuid_b initial).
Proof.
  destruct C4_terminal_status_leaves_loop as (Hblocked & Hdelivered & Hfirst).
  split; [|split].
  - apply (Hblocked 0%nat Examples.w_blocked Examples.uuid_b 3600 5 0 0 initial
             Examples.blocked_record);
      [simpl; lia | reflexivity | vm_compute; reflexivity].
  - apply (Hdelivered 0%nat Examples.w_delivered Examples.uuid_b 3600 5 0 0 initial
             (Examples.delivered_record (PStr "12 ad sets analysed")) "12 ad sets analysed");
      [simpl; lia | reflexivity | vm_compute; reflexivity | vm_compute; reflexivity].
  - apply (Hfirst 0%nat Examples.w_blocked Examples.uuid_b 3600 5 initial
             Examples.blocked_record);
      [lia | reflexivity | vm_compute; reflexivity].
Defined.

(** C4 as stated fails: the record is DELIVERED with a summary of 201
    characters, and the message that comes back does not hold that
    summary. *)
Lemma C4_long_summary_counterexample :
  Meta.deliverable_of (w_get Examples.w_long_summary 0%nat)
  = Some (Examples.delivered_record (PStr Examples.long_summary)) /\
  exists message s',
    Meta.poll_for_completion 1 Examples.w_long_summary Examples.uuid_b 3600 5 initial
    = Some (Ret ("DELIVERED", message), s') /\
    contains Examples.long_summary message = false /\
    message = "Completed at 2024-05-01T12:00:00Z. Summary: " +:+ Examples.replicate_char 200 "a".
Proof.
  split; [reflexivity|].
  eexists. eexists. split; [vm_compute; reflexivity|].
  split; vm_compute; reflexivity.
Qed.

(** ** Exceptions *)

(** C9 fails on this input: the record is DELIVERED and its nullable
    summary column is [null]; [summary[:200]] raises [TypeError], nothing
    catches it, and it leaves [poll_for_completion] and
    [dispatch_and_monitor] instead of a result. *)
Theorem C9_null_summary_raises :
  Meta.deliverable_of (w_get Examples.w_null_summary 0%nat)
  = Some (Examples.delivered_record PNone) /\
  (forall fuel,
     Meta.poll_for_completion (S fuel) Examples.w_null_summary Examples.uuid_b 3600 5 initial
     = Some (Raise TypeError, after_get Examples.w_null_summary Examples.uuid_b initial)) /\
  (forall fuel,
     exists s',
       Meta.dispatch_and_monitor (S fuel) Examples.w_null_summary "data_placement"
         Examples.uuid_a Examples.uuid_b Examples.uuid_c "192.168.1.100" 3600 initial
       = Some (Raise TypeError, s')).
Proof.
  assert (Hpoll : forall fuel s,
    Meta.poll_for_completion (S fuel) Examples.w_null_summary Examples.uuid_b 3600 5 s
    = Some (Raise TypeError, after_get Examples.w_null_summary Examples.uuid_b s)).
  { intros fuel s. unfold Meta.poll_for_completion, bind, time_time.
    rewrite while_true_S.
    rewrite (poll_body_found _ _ _ _ _ _ _ (Examples.delivered_record PNone));
      [reflexivity | lia | reflexivity | eexists; vm_compute; reflexivity]. }
  split; [reflexivity|]. split.
  - intros fuel. apply Hpoll.
  - intros fuel. rewrite dispatch_unfold.
    replace (Meta.AGENT_SKILL_MAP !! "data_placement")
      with (Some "meta-ads-data-placement-analyst") by (vm_compute; reflexivity).
    simpl. rewrite Hpoll. eauto.
Qed.

(** ** A record that never appears *)

(** C6, as the script has it. When every read finds no record (positive
    interval, reads that take between 0 and [longest] milliseconds), the
    polling phase raises nothing and comes back with TIMEOUT, not before
    thirty seconds or the whole timeout have gone by, whichever is shorter.
    Its message is the not-found one or the general one of an exceeded
    timeout; it is the not-found one whenever the timeout leaves room for a
    pass after the thirtieth second, that is when thirty seconds, one
    interval and the longest read fit into it. *)
Theorem C6_absent_record_times_out
    (w : world) (task_id : string) (timeout_seconds poll_interval longest : Z)
    (s : state) (fuel : nat) :
  (forall k, Meta.deliverable_of (w_get w k) = None) ->
  (forall k, 0 <= w_get_cost w k <= longest) ->
  0 < poll_interval ->
  (Z.to_nat timeout_seconds + 2 <= fuel)%nat ->
  exists message s' tr,
    Meta.poll_for_completion fuel w task_id timeout_seconds poll_interval s
    = Some (Ret ("TIMEOUT", message), s') /\
    trace s' = (trace s ++ tr)%list /\
    forallb is_poll_event tr = true /\
    Z.min 30000 (1000 * timeout_seconds) < now s' - now s /\
    (message = Meta.NOT_FOUND_MSG \/
     exists polls, message = Meta.timeout_msg timeout_seconds polls) /\
    (30000 + longest + 1000 * poll_interval <= 1000 * timeout_seconds ->
     message = Meta.NOT_FOUND_MSG).
Proof.
  intros Habsent Hcost Hint Hfuel.
  assert (Hcost0 : forall k, 0 <= w_get_cost w k) by (intros k; apply Hcost).
  destruct (poll_total w task_id timeout_seconds poll_interval s Hcost0 Hint fuel Hfuel)
    as [[r s'] Hrun].
  destruct (poll_trace _ _ _ _ _ _ _ _ Hrun) as (_ & tr & Htr & Hall).
  pose (Q := fun (r : outcome (string * string)) (s' : state) =>
    exists message,
      r = Ret ("TIMEOUT", message) /\
      Z.min 30000 (1000 * timeout_seconds) < now s' - now s /\
      (message = Meta.NOT_FOUND_MSG \/
       exists polls, message = Meta.timeout_msg timeout_seconds polls) /\
      (30000 + longest + 1000 * poll_interval <= 1000 * timeout_seconds ->
       message = Meta.NOT_FOUND_MSG)).
  assert (HQ : Q r s').
  { revert Hrun. unfold Meta.poll_for_completion, bind, time_time.
    apply (while_true_inv
             (fun _ s1 => now s1 - now s <= 30000 + longest + 1000 * poll_interval) Q).
    - intros count s1 r1 s2 Hinv Hbody.
      destruct (Z_lt_le_dec (1000 * timeout_seconds) (now s1 - now s)) as [Hlt|Hle].
      + rewrite poll_body_timeout in Hbody by assumption.
        injection Hbody as <- <-. eexists. split; [reflexivity|].
        split; [lia|]. split; [right; eauto|]. intros Hroom. lia.
      + rewrite poll_body_absent in Hbody;
          [|assumption|lia|rewrite Habsent; reflexivity].
        specialize (Hcost (gets s1)).
        destruct (30000 <? now s1 - now s) eqn:Hgrace; injection Hbody as <- <-.
        * apply Z.ltb_lt in Hgrace. eexists. split; [reflexivity|].
          simpl. split; [lia|]. split; [left; reflexivity|]. reflexivity.
        * apply Z.ltb_ge in Hgrace. simpl. lia.
    - specialize (Hcost 0%nat). lia. }
  destruct HQ as (message & -> & Hlate & Hmsg & Hroom).
  exists message, s', tr. repeat split; assumption.
Qed.

Lemma C6_absent_record_witness :
  exists message s' tr,
    Meta.poll_for_completion 3602%nat Examples.w_absent Examples.uuid_b 3600 5 initial
    = Some (Ret ("TIMEOUT", message), s') /\
    trace s' = (trace initial ++ tr)%list /\
    forallb is_poll_event tr = true /\
    Z.min 30000 (1000 * 3600) < now s' - now initial /\
    (message = Meta.NOT_FOUND_MSG \/ exists polls, message = Meta.timeout_msg 3600 polls) /\
    (30000 + 200 + 1000 * 5 <= 1000 * 3600 -> message = Meta.NOT_FOUND_MSG).
Proof.
  apply (C6_absent_record_times_out Examples.w_absent Examples.uuid_b 3600 5 200 initial
           3602%nat).
  - intros k. reflexivity.
  - intros k. simpl. lia.
  - lia.
  - simpl. lia.
Defined.

(** C6 as stated fails: with a timeout of 31 seconds and reads of 200 ms
    the record never appears, the sixth pass ends 31.2 seconds in, past the
    thirty seconds of grace, and the seventh returns the general timeout
    message, the very message a record that stayed IN_PROGRESS gets. *)
Lemma C6_same_diagnostic_counterexample :
  (forall k, Meta.deliverable_of (w_get Examples.w_absent k) = None) /\
  exists s_absent s_stalled,
    Meta.poll_for_completion 10 Examples.w_absent Examples.uuid_b 31 5 initial
    = Some (Ret ("TIMEOUT", "Agent did not complete within 31s (7 polls)"), s_absent) /\
    Meta.poll_for_completion 10 Examples.w_in_progress Examples.uuid_b 31 5 initial
    = Some (Ret ("TIMEOUT", "Agent did not complete within 31s (7 polls)"), s_stalled) /\
    30000 < now s_absent - now initial /\
    "Agent did not complete within 31s (7 polls)" <> Meta.NOT_FOUND_MSG.
Proof.
  split; [intros k; reflexivity|].
  eexists. eexists. split; [vm_compute; reflexivity|]. split; [vm_compute; reflexivity|].
  split; [simpl; lia|discriminate].
Qed.

(** ** Validation *)

Lemma AGENT_NAMES_lookup (agent full : string) :
  Google.AGENT_NAMES !! agent = Some full -> agent <> "" /\ full <> "".
Proof.
  unfold Google.AGENT_NAMES. simpl. intros H.
  repeat (rewrite lookup_insert in H; case_decide; [simplify_eq; split; discriminate|]).
  rewrite lookup_empty in H. discriminate.
Qed.

(** The full name that [__init__] stores is empty for the empty name only. *)
Lemma agent_full_falsy host user agent cycle task brand timeout interval :
  Google.str_falsy
    (Google.agent_full (Google.init host user agent cycle task brand timeout interval)) = true
  <-> agent = "".
Proof.
  unfold Google.init. simpl.
  destruct (Google.AGENT_NAMES !! agent) as [full|] eqn:Hlookup.
  - apply AGENT_NAMES_lookup in Hlookup as [Hagent Hfull].
    destruct full; [congruence|]. simpl. split; [discriminate|congruence].
  - destruct agent; simpl; split; congruence.
Qed.

(** C7, as the script has it. Validation in the Google orchestrator fails
    exactly when one of the three identifiers does not parse as a UUID, or
    the agent name is the empty string, or the timeout is below 60 seconds;
    a name that is not in the table is taken as a full worker name and
    passes. When validation fails, [run] returns [False] and leaves the
    state as it found it: no ssh run, no other effect. *)
Theorem C7_validation_rejects
    (uuid_parses : string -> bool)
    (host user agent cycle_id task_id brand_id : string) (timeout interval : Z) :
  (Google.validate_inputs uuid_parses
     (Google.init host user agent cycle_id task_id brand_id timeout interval) = false
   <-> uuid_parses cycle_id = false \/ uuid_parses task_id = false \/
       uuid_parses brand_id = false \/ agent = "" \/ timeout < 60) /\
  (forall w s,
     Google.validate_inputs uuid_parses
       (Google.init host user agent cycle_id task_id brand_id timeout interval) = false ->
     Google.run uuid_parses w
       (Google.init host user agent cycle_id task_id brand_id timeout interval) s
     = Some (Ret false, s)).
Proof.
  split.
  - pose proof (agent_full_falsy host user agent cycle_id task_id brand_id timeout interval)
      as Hagent.
    unfold Google.validate_inputs.
    destruct (Google.str_falsy _) eqn:Hfalsy.
    + assert (agent = "") as Hempty by (apply Hagent; reflexivity).
      split; [auto|]. intros _.
      destruct (negb _); reflexivity.
    + assert (agent <> "") as Hnonempty.
      { intros Hempty. apply Hagent in Hempty. congruence. }
      simpl.
      destruct (uuid_parses cycle_id), (uuid_parses task_id), (uuid_parses brand_id); simpl;
        try (split; [auto|reflexivity]).
      destruct (timeout <? 60) eqn:Hfloor.
      * apply Z.ltb_lt in Hfloor. split; [auto 6|reflexivity].
      * apply Z.ltb_ge in Hfloor. split; [discriminate|].
        intros [?|[?|[?|[?|?]]]]; try discriminate; try contradiction; lia.
  - intros w s Hinvalid. rewrite run_unfold, Hinvalid. reflexivity.
Qed.

Lemma C7_validation_rejects_witness :
  Google.run Google.canonical_uuid Examples.w_google_ok
    (Google.init "192.168.1.100" "agent-runner" "data-placement" Examples.uuid_a
       Examples.uuid_b Examples.uuid_c 30 30) initial
  = Some (Ret false, initial).
Proof.
  destruct (C7_validation_rejects Google.canonical_uuid "192.168.1.100" "agent-runner"
              "data-placement" Examples.uuid_a Examples.uuid_b Examples.uuid_c 30 30)
    as [Hexactly Hrun].
  apply (Hrun Examples.w_google_ok initial).
  apply Hexactly. right. right. right. right. lia.
Defined.

(** C7 as stated fails: a name that the table does not hold passes
    validation and is sent to the remote side as it is. *)
Lemma C7_unknown_agent_counterexample :
  Google.AGENT_NAMES !! "no-such-agent" = None /\
  Google.validate_inputs Google.canonical_uuid
    (Google.init "192.168.1.100" "agent-runner" "no-such-agent" Examples.uuid_a
       Examples.uuid_b Examples.uuid_c 1800 30) = true /\
  exists s',
    Google.run Google.canonical_uuid Examples.w_google_ok
      (Google.init "192.168.1.100" "agent-runner" "no-such-agent" Examples.uuid_a
         Examples.uuid_b Examples.uuid_c 1800 30) initial
    = Some (Ret true, s') /\
    trace s' =
      [EvSsh "agent-runner@192.168.1.100" "echo CONNECTION_OK";
       EvSsh "agent-runner@192.168.1.100"
         ("openclaw run no-such-agent --cycle " +:+ Examples.uuid_a +:+
          " --task " +:+ Examples.uuid_b +:+ " --brand " +:+ Examples.uuid_c)].
Proof.
  split; [vm_compute; reflexivity|]. split; [vm_compute; reflexivity|].
  eexists. split; vm_compute; reflexivity.
Qed.

(** * Further properties of the two scripts *)

(** ** Bounds on a run of the polling loop *)

Section PollBounds.
Context (w : world) (task_id : string) (timeout_seconds poll_interval start_time : Z).

(** Where a pass can leave the state, and with what. *)
Lemma poll_body_state count s r s' :
  Meta.poll_body w task_id timeout_seconds poll_interval start_time count s = Some (r, s') ->
  (1000 * timeout_seconds < now s - start_time /\ s' = s /\
   r = Ret (Break ("TIMEOUT", Meta.timeout_msg timeout_seconds (count + 1)))) \/
  (now s - start_time <= 1000 * timeout_seconds /\ s' = after_get w task_id s /\
   r <> Ret Continue /\
   forall message, r = Ret (Break ("TIMEOUT", message)) -> message = Meta.NOT_FOUND_MSG) \/
  (now s - start_time <= 1000 * timeout_seconds /\
   s' = Passes.wait_pass w task_id poll_interval s /\ r = Ret Continue /\
   0 <= poll_interval).
Proof.
  intros H. unfold Passes.wait_pass. run_monad.
  destruct (1000 * timeout_seconds <? now s - start_time) eqn:Hlt.
  - apply Z.ltb_lt in Hlt. injection H as <- <-. left. repeat split. assumption.
  - apply Z.ltb_ge in Hlt. right.
    split_all;
      try (left; repeat split; [assumption|discriminate|intros message; congruence]);
      right; repeat split; lia.
Qed.

End PollBounds.

(** X2. The count in the general TIMEOUT message is one more than the number
    of reads the polling phase made: the pass that finds the timeout
    exceeded is counted although it reads nothing. *)
Theorem X2_timeout_message_counts_passes
    (fuel : nat) (w : world) (task_id : string) (timeout_seconds poll_interval : Z)
    (s s' : state) (message : string) :
  Meta.poll_for_completion fuel w task_id timeout_seconds poll_interval s
  = Some (Ret ("TIMEOUT", message), s') ->
  message <> Meta.NOT_FOUND_MSG ->
  (gets s <= gets s')%nat /\
  message = Meta.timeout_msg timeout_seconds (Z.of_nat (gets s' - gets s) + 1).
Proof.
  unfold Meta.poll_for_completion, bind, time_time. intros Hrun Hmsg.
  refine (while_true_inv
            (fun count s1 => (gets s <= gets s1)%nat /\ count = Z.of_nat (gets s1 - gets s))
            (fun r s1 => forall m, r = Ret ("TIMEOUT", m) -> m <> Meta.NOT_FOUND_MSG ->
               (gets s <= gets s1)%nat /\
               m = Meta.timeout_msg timeout_seconds (Z.of_nat (gets s1 - gets s) + 1))
            _ _ fuel 0 s _ s' _ Hrun message eq_refl Hmsg).
  - intros count s1 r s2 [Hle ->] Hbody.
    apply poll_body_state in Hbody
      as [(_ & -> & ->)|[(_ & -> & Hnc & Hnf)|(_ & -> & -> & _)]].
    + intros m [= <-] _. split; [assumption|reflexivity].
    + destruct r as [[a|]|e]; [|congruence|discriminate].
      intros m [= ->] Hm. exfalso. apply Hm, Hnf. reflexivity.
    + simpl. split; [lia|]. lia.
  - split; [lia|]. rewrite Nat.sub_diag. reflexivity.
Qed.

Lemma X2_timeout_message_witness :
  (gets initial <= gets (mkState 10400 2 0
                           [EvGet Examples.uuid_b; EvSleep 5000; EvGet Examples.uuid_b;
                            EvSleep 5000]))%nat /\
  "Agent did not complete within 10s (3 polls)"
  = Meta.timeout_msg 10
      (Z.of_nat (gets (mkState 10400 2 0
                         [EvGet Examples.uuid_b; EvSleep 5000; EvGet Examples.uuid_b;
                          EvSleep 5000])
                 - gets initial) + 1).
Proof.
  apply (X2_timeout_message_counts_passes 5%nat Examples.w_in_progress Examples.uuid_b 10 5
           initial).
  - vm_compute. reflexivity.
  - discriminate.
Defined.

(** X3. The polling phase reads the task record at most
    [timeout_seconds / poll_interval + 1] times (positive interval, reads
    that take no negative time), and not at all when the timeout is
    negative. *)
Theorem X3_reads_are_bounded
    (fuel : nat) (w : world) (task_id : string) (timeout_seconds poll_interval : Z)
    (s s' : state) (r : outcome (string * string)) :
  (forall k, 0 <= w_get_cost w k) ->
  0 < poll_interval ->
  Meta.poll_for_completion fuel w task_id timeout_seconds poll_interval s = Some (r, s') ->
  (gets s <= gets s')%nat /\
  (timeout_seconds < 0 -> gets s' = gets s) /\
  Z.of_nat (gets s' - gets s) <= Z.max 0 (timeout_seconds / poll_interval + 1).
Proof.
  intros Hcost Hint. unfold Meta.poll_for_completion, bind, time_time. intros Hrun.
  pose (J := fun s1 : state =>
    (gets s <= gets s1)%nat /\
    (gets s1 = gets s \/
     (0 <= timeout_seconds /\
      Z.of_nat (gets s1 - gets s) <= timeout_seconds / poll_interval + 1))).
  assert (HJ : J s').
  { refine (while_true_inv
              (fun _ s1 => J s1 /\
                 1000 * poll_interval * Z.of_nat (gets s1 - gets s) <= now s1 - now s)
              (fun _ s1 => J s1) _ _ fuel 0 s r s' _ Hrun).
    - intros count s1 r1 s2 [[Hle Hbound] Htime] Hbody.
      assert (Hread : now s1 - now s <= 1000 * timeout_seconds ->
                J (after_get w task_id s1)).
      { intros Hin. split; [simpl; lia|]. right.
        assert (poll_interval * Z.of_nat (gets s1 - gets s) <= timeout_seconds) by nia.
        split; [nia|].
        assert (Z.of_nat (gets s1 - gets s) <= timeout_seconds / poll_interval)
          by (apply Z.div_le_lower_bound; lia).
        simpl. lia. }
      apply poll_body_state in Hbody
        as [(_ & -> & ->)|[(Hin & -> & Hnc & _)|(Hin & -> & -> & _)]].
      + split; assumption.
      + destruct r1 as [[a|]|e]; [|congruence|]; apply Hread, Hin.
      + split; [exact (Hread Hin)|].
        specialize (Hcost (gets s1)). simpl. nia.
    - split; [split; [lia|left; reflexivity]|]. rewrite Nat.sub_diag. lia. }
  destruct HJ as [Hle [Heq|[Hpos Hbound]]].
  - split; [assumption|]. split; [intros _; assumption|]. rewrite Heq, Nat.sub_diag. lia.
  - split; [assumption|]. split; [lia|lia].
Qed.

Lemma X3_reads_are_bounded_witness :
  (gets initial <= gets (mkState 10400 2 0
                           [EvGet Examples.uuid_b; EvSleep 5000; EvGet Examples.uuid_b;
                            EvSleep 5000]))%nat /\
  (10 < 0 ->
   gets (mkState 10400 2 0
           [EvGet Examples.uuid_b; EvSleep 5000; EvGet Examples.uuid_b; EvSleep 5000])
   = gets initial) /\
  Z.of_nat (gets (mkState 10400 2 0
                    [EvGet Examples.uuid_b; EvSleep 5000; EvGet Examples.uuid_b;
                     EvSleep 5000]) - gets initial)
  <= Z.max 0 (10 / 5 + 1).
Proof.
  apply (X3_reads_are_bounded 5%nat Examples.w_in_progress Examples.uuid_b 10 5 initial _
           (Ret ("TIMEOUT", "Agent did not complete within 10s (3 polls)"))).
  - intros k. simpl. lia.
  - lia.
  - vm_compute. reflexivity.
Defined.

(** X4. Time never runs backwards over the polling phase, and the phase
    ends no later than one interval and one read after the timeout (reads
    that take between 0 and [longest] milliseconds, no negative interval). *)
Theorem X4_polling_time_is_bounded
    (fuel : nat) (w : world) (task_id : string) (timeout_seconds poll_interval longest : Z)
    (s s' : state) (r : outcome (string * string)) :
  (forall k, 0 <= w_get_cost w k <= longest) ->
  0 <= poll_interval ->
  Meta.poll_for_completion fuel w task_id timeout_seconds poll_interval s = Some (r, s') ->
  now s <= now s' /\
  now s' - now s <= Z.max 0 (1000 * timeout_seconds) + 1000 * poll_interval + longest.
Proof.
  intros Hcost Hint. unfold Meta.poll_for_completion, bind, time_time. intros Hrun.
  pose (J := fun s1 : state =>
    now s <= now s1 /\
    now s1 - now s <= Z.max 0 (1000 * timeout_seconds) + 1000 * poll_interval + longest).
  refine (while_true_inv (fun _ s1 => J s1) (fun _ s1 => J s1) _ _ fuel 0 s r s' _ Hrun).
  - intros count s1 r1 s2 [Hmono Hbound] Hbody.
    specialize (Hcost (gets s1)).
    apply poll_body_state in Hbody
      as [(_ & -> & ->)|[(Hin & -> & Hnc & _)|(Hin & -> & -> & _)]].
    + split; assumption.
    + assert (J (after_get w task_id s1)) by (split; simpl; lia).
      destruct r1 as [[a|]|e]; [|congruence|]; assumption.
    + split; simpl; lia.
  - specialize (Hcost 0%nat). split; lia.
Qed.

Lemma X4_polling_time_witness :
  now initial <= now (mkState 10400 2 0
                        [EvGet Examples.uuid_b; EvSleep 5000; EvGet Examples.uuid_b;
                         EvSleep 5000]) /\
  now (mkState 10400 2 0
         [EvGet Examples.uuid_b; EvSleep 5000; EvGet Examples.uuid_b; EvSleep 5000])
  - now initial <= Z.max 0 (1000 * 10) + 1000 * 5 + 200.
Proof.
  apply (X4_polling_time_is_bounded 5%nat Examples.w_in_progress Examples.uuid_b 10 5 200
           initial _ (Ret ("TIMEOUT", "Agent did not complete within 10s (3 polls)"))).
  - intros k. simpl. lia.
  - lia.
  - vm_compute. reflexivity.
Defined.

(** ** Arguments at the edge of their range *)

Section PollEdges.
Context (w : world) (task_id : string) (timeout_seconds poll_interval start_time : Z).

(** The pass that reads something the loop waits on. *)
Lemma poll_body_waits count s :
  now s - start_time <= 1000 * timeout_seconds ->
  Passes.keeps_waiting (Meta.deliverable_of (w_get w (gets s))) (now s - start_time) = true ->
  Meta.poll_body w task_id timeout_seconds poll_interval start_time count s =
    if 1000 * poll_interval <? 0 then Some (Raise ValueError, after_get w task_id s)
    else Some (Ret Continue, Passes.wait_pass w task_id poll_interval s).
Proof.
  intros Hle Hwait. apply Z.ltb_ge in Hle.
  unfold Passes.keeps_waiting in Hwait. unfold Passes.wait_pass.
  unfold Meta.poll_body, Meta.get_deliverable_status, bind, time_time, requests_get, ret,
    raise, time_sleep.
  rewrite Hle.
  destruct (Meta.falsy (Meta.deliverable_of (w_get w (gets s)))).
  - apply negb_true_iff in Hwait. rewrite Hwait.
    destruct (1000 * poll_interval <? 0); reflexivity.
  - apply andb_true_iff in Hwait as [Hd Hb].
    apply negb_true_iff in Hd, Hb. simpl. rewrite Hd, Hb.
    generalize (dict_get (default ∅ (Meta.deliverable_of (w_get w (gets s)))) "status"
                  (PStr "UNKNOWN")).
    intros status.
    destruct (eq_str status "IN_PROGRESS"), (eq_str status "PENDING"),
      (1000 * poll_interval <? 0); reflexivity.
Qed.

End PollEdges.

(** X5. A negative timeout ends the polling phase at its first pass, with
    TIMEOUT, one counted poll and no read. The Meta workflow as a whole then
    writes IN_PROGRESS, triggers the agent and returns exit code 1 without
    ever reading the task record. *)
Theorem X5_negative_timeout_never_reads :
  (forall fuel w task_id timeout_seconds poll_interval s,
     timeout_seconds < 0 ->
     Meta.poll_for_completion (S fuel) w task_id timeout_seconds poll_interval s
     = Some (Ret ("TIMEOUT", Meta.timeout_msg timeout_seconds 1), s)) /\
  (forall fuel w agent_name cycle_id task_id brand_id host timeout_seconds s skill,
     timeout_seconds < 0 ->
     Meta.AGENT_SKILL_MAP !! agent_name = Some skill ->
     exit_ok (w_ssh w (sshs s)) = true ->
     Meta.dispatch_and_monitor (S fuel) w agent_name cycle_id task_id brand_id host
       timeout_seconds s
     = Some (Ret 1, triggered skill cycle_id task_id brand_id host s)).
Proof.
  assert (Hpoll : forall fuel w task_id timeout_seconds poll_interval s,
     timeout_seconds < 0 ->
     Meta.poll_for_completion (S fuel) w task_id timeout_seconds poll_interval s
     = Some (Ret ("TIMEOUT", Meta.timeout_msg timeout_seconds 1), s)).
  { intros fuel w task_id timeout_seconds poll_interval s Hneg.
    unfold Meta.poll_for_completion, bind, time_time.
    rewrite while_true_S, poll_body_timeout by lia. reflexivity. }
  split; [exact Hpoll|].
  intros fuel w agent_name cycle_id task_id brand_id host timeout_seconds s skill
    Hneg Hskill Hok.
  rewrite dispatch_unfold, Hskill, Hok, Hpoll by assumption. reflexivity.
Qed.

Lemma X5_negative_timeout_witness :
  Meta.poll_for_completion 1 Examples.w_delivered Examples.uuid_b (-1) 5 initial
  = Some (Ret ("TIMEOUT", Meta.timeout_msg (-1) 1), initial) /\
  Meta.dispatch_and_monitor 1 Examples.w_delivered "data_placement" Examples.uuid_a
    Examples.uuid_b Examples.uuid_c "192.168.1.100" (-1) initial
  = Some (Ret 1,
          triggered "meta-ads-data-placement-analyst" Examples.uuid_a Examples.uuid_b
            Examples.uuid_c "192.168.1.100" initial).
Proof.
  split.
  - apply (proj1 X5_negative_timeout_never_reads 0%nat Examples.w_delivered Examples.uuid_b
             (-1) 5 initial). lia.
  - apply (proj2 X5_negative_timeout_never_reads 0%nat Examples.w_delivered "data_placement"
             Examples.uuid_a Examples.uuid_b Examples.uuid_c "192.168.1.100" (-1) initial
             "meta-ads-data-placement-analyst");
      [lia | vm_compute; reflexivity | reflexivity].
Defined.

(** X6. A negative poll interval makes the first sleep raise: when the
    first read, made within the timeout, finds nothing or a record in a
    status other than DELIVERED and BLOCKED, [poll_for_completion] ends with
    [ValueError] after that one read. *)
Theorem X6_negative_interval_raises
    (fuel : nat) (w : world) (task_id : string) (timeout_seconds poll_interval : Z)
    (s : state) :
  poll_interval < 0 ->
  0 <= timeout_seconds ->
  Passes.keeps_waiting (Meta.deliverable_of (w_get w (gets s))) 0 = true ->
  Meta.poll_for_completion (S fuel) w task_id timeout_seconds poll_interval s
  = Some (Raise ValueError, after_get w task_id s).
Proof.
  intros Hneg Hpos Hwait.
  unfold Meta.poll_for_completion, bind, time_time.
  rewrite while_true_S, poll_body_waits; rewrite ?Z.sub_diag; [|lia|assumption].
  assert ((1000 * poll_interval <? 0) = true) as -> by (apply Z.ltb_lt; lia).
  reflexivity.
Qed.

Lemma X6_negative_interval_witness :
  Meta.poll_for_completion 1 Examples.w_in_progress Examples.uuid_b 3600 (-5) initial
  = Some (Raise ValueError, after_get Examples.w_in_progress Examples.uuid_b initial).
Proof.
  apply (X6_negative_interval_raises 0%nat Examples.w_in_progress Examples.uuid_b 3600 (-5)
           initial); [lia | lia | vm_compute; reflexivity].
Defined.

(** ** A record that becomes terminal after some passes *)

Section WaitingPasses.
Context (w : world) (task_id : string) (timeout_seconds poll_interval : Z).

Local Abbreviation waited := (Passes.waits w task_id poll_interval).
Local Abbreviation elapsed := (Passes.elapsed_before w poll_interval).

Lemma waits_S k s : waited (S k) s = Passes.wait_pass w task_id poll_interval (waited k s).
Proof.
  revert s. induction k as [|k IH]; intros s; [reflexivity|].
  change (waited (S (S k)) s) with (waited (S k) (Passes.wait_pass w task_id poll_interval s)).
  rewrite IH. reflexivity.
Qed.

Lemma waits_state k s :
  waited k s =
    mkState (now s + elapsed (gets s) k) (gets s + k) (sshs s)
            (trace s ++ Passes.wait_events task_id poll_interval k).
Proof.
  revert s. induction k as [|k IH]; intros s.
  - simpl. rewrite Z.add_0_r, Nat.add_0_r, app_nil_r. destruct s; reflexivity.
  - simpl. rewrite IH. simpl. f_equal; [lia|lia|].
    rewrite <- !app_assoc. reflexivity.
Qed.

Lemma elapsed_before_mono g i k :
  (forall j, 0 <= w_get_cost w j) -> 0 <= poll_interval -> (i <= k)%nat ->
  0 <= elapsed g i <= elapsed g k.
Proof.
  intros Hcost Hint. revert g k. induction i as [|i IH]; intros g k Hle.
  - simpl. split; [lia|]. revert g. induction k as [|k IHk]; intros g; simpl; [lia|].
    specialize (Hcost g). specialize (IHk ltac:(lia) (S g)). lia.
  - destruct k as [|k]; [lia|]. simpl.
    specialize (IH (S g) k ltac:(lia)). specialize (Hcost g). lia.
Qed.

(** [k] passes that all wait take the loop from [s] to [waited k s]. *)
Lemma loop_waits start_time k fuel count s :
  (forall i, (i < k)%nat ->
     now (waited i s) - start_time <= 1000 * timeout_seconds /\
     Passes.keeps_waiting (Meta.deliverable_of (w_get w (gets (waited i s))))
       (now (waited i s) - start_time) = true) ->
  0 <= poll_interval ->
  while_true (k + fuel) (Meta.poll_body w task_id timeout_seconds poll_interval start_time)
    count s
  = while_true fuel (Meta.poll_body w task_id timeout_seconds poll_interval start_time)
      (count + Z.of_nat k) (waited k s).
Proof.
  intros Hwaits Hint. revert count s Hwaits.
  induction k as [|k IH]; intros count s Hwaits.
  - simpl. rewrite Z.add_0_r. reflexivity.
  - change (S k + fuel)%nat with (S (k + fuel)). rewrite while_true_S.
    destruct (Hwaits 0%nat ltac:(lia)) as [Hin Hkeep]. simpl in Hin, Hkeep.
    rewrite poll_body_waits by assumption.
    assert ((1000 * poll_interval <? 0) = false) as -> by (apply Z.ltb_ge; lia).
    rewrite IH.
    + simpl. f_equal. lia.
    + intros i Hi. apply (Hwaits (S i)). lia.
Qed.

(** The polling phase, up to the pass that follows [k] waiting ones. *)
Lemma poll_reaches k fuel s :
  (forall j, 0 <= w_get_cost w j) ->
  0 <= poll_interval ->
  (forall i, (i < k)%nat ->
     Passes.keeps_waiting (Meta.deliverable_of (w_get w (gets s + i)))
       (elapsed (gets s) i) = true) ->
  elapsed (gets s) k <= 1000 * timeout_seconds ->
  Meta.poll_for_completion (k + fuel) w task_id timeout_seconds poll_interval s
  = while_true fuel (Meta.poll_body w task_id timeout_seconds poll_interval (now s))
      (Z.of_nat k) (waited k s).
Proof.
  intros Hcost Hint Hwaits Hin.
  unfold Meta.poll_for_completion, bind, time_time.
  rewrite loop_waits; [reflexivity| |assumption].
  intros i Hi. rewrite waits_state. simpl.
  replace (now s + elapsed (gets s) i - now s) with (elapsed (gets s) i) by lia.
  split; [|apply Hwaits, Hi].
  pose proof (elapsed_before_mono (gets s) i k Hcost Hint ltac:(lia)). lia.
Qed.

End WaitingPasses.

(** X1. When the first [k] reads find nothing (within the thirty seconds)
    or a record in a status other than DELIVERED and BLOCKED, and the next
    read, begun within the timeout, finds the record BLOCKED, or DELIVERED
    with a string summary, the polling phase returns that status at that
    read: after exactly [k + 1] reads and [k] sleeps, at the time the
    [k + 1] reads and [k] intervals take, however much of the timeout is
    left. *)
Theorem X1_terminal_status_after_waiting
    (w : world) (task_id : string) (timeout_seconds poll_interval : Z)
    (s : state) (k fuel : nat) (d : gmap string pyval) :
  (forall j, 0 <= w_get_cost w j) ->
  0 <= poll_interval ->
  (forall i, (i < k)%nat ->
     Passes.keeps_waiting (Meta.deliverable_of (w_get w (gets s + i)))
       (Passes.elapsed_before w poll_interval (gets s) i) = true) ->
  Passes.elapsed_before w poll_interval (gets s) k <= 1000 * timeout_seconds ->
  Meta.deliverable_of (w_get w (gets s + k)) = Some d ->
  (k + 1 <= fuel)%nat ->
  (d !! "status" = Some (PStr "BLOCKED") ->
   Meta.poll_for_completion fuel w task_id timeout_seconds poll_interval s
   = Some (Ret ("BLOCKED",
                "Agent blocked: " +:+ str (dict_get d "blocked_reason" (PStr "Unknown reason"))),
           mkState (now s + Passes.elapsed_before w poll_interval (gets s) k
                    + w_get_cost w (gets s + k))
                   (gets s + k + 1) (sshs s)
                   (trace s ++ Passes.wait_events task_id poll_interval k ++
                    [EvGet task_id]))) /\
  (forall summary,
     d !! "status" = Some (PStr "DELIVERED") ->
     dict_get d "summary" (PStr "[no summary]") = PStr summary ->
     Meta.poll_for_completion fuel w task_id timeout_seconds poll_interval s
     = Some (Ret ("DELIVERED",
                  "Completed at " +:+ str (dict_get d "delivered_at" (PStr "")) +:+
                  ". Summary: " +:+ slice_to 200 summary),
             mkState (now s + Passes.elapsed_before w poll_interval (gets s) k
                      + w_get_cost w (gets s + k))
                     (gets s + k + 1) (sshs s)
                     (trace s ++ Passes.wait_events task_id poll_interval k ++
                      [EvGet task_id]))).
Proof.
  intros Hcost Hint Hwaits Hin Hd Hfuel.
  replace fuel with (k + S (fuel - k - 1))%nat by lia.
  rewrite (poll_reaches w task_id timeout_seconds poll_interval k _ s Hcost Hint Hwaits Hin).
  rewrite while_true_S.
  assert (Hstate : after_get w task_id (Passes.waits w task_id poll_interval k s)
                   = mkState (now s + Passes.elapsed_before w poll_interval (gets s) k
                              + w_get_cost w (gets s + k))
                             (gets s + k + 1) (sshs s)
                             (trace s ++ Passes.wait_events task_id poll_interval k ++
                              [EvGet task_id])).
  { rewrite waits_state. unfold after_get. simpl. f_equal; [lia|].
    rewrite <- app_assoc. reflexivity. }
  rewrite <- Hstate.
  split.
  - intros Hst.
    rewrite (poll_body_found _ _ _ _ _ _ _ d);
      [| rewrite waits_state; simpl; lia | rewrite waits_state; simpl; exact Hd | eauto].
    rewrite !(dict_get_some d "status" _ _ Hst). reflexivity.
  - intros summary Hst Hsum.
    rewrite (poll_body_found _ _ _ _ _ _ _ d);
      [| rewrite waits_state; simpl; lia | rewrite waits_state; simpl; exact Hd | eauto].
    rewrite !(dict_get_some d "status" _ _ Hst), Hsum. reflexivity.
Qed.

Lemma X1_terminal_status_witness :
  Meta.poll_for_completion 4 Scenarios.w_appears Examples.uuid_b 5 1 initial
  = Some (Ret ("DELIVERED",
               "Completed at " +:+
               str (dict_get (Examples.delivered_record (PStr "12 ad sets analysed"))
                      "delivered_at" (PStr "")) +:+
               ". Summary: " +:+ slice_to 200 "12 ad sets analysed"),
          mkState (now initial + Passes.elapsed_before Scenarios.w_appears 1 (gets initial) 3
                   + w_get_cost Scenarios.w_appears (gets initial + 3))
                  (gets initial + 3 + 1) (sshs initial)
                  (trace initial ++ Passes.wait_events Examples.uuid_b 1 3 ++
                   [EvGet Examples.uuid_b])).
Proof.
  refine (proj2 (X1_terminal_status_after_waiting Scenarios.w_appears Examples.uuid_b 5 1
                   initial 3 4 (Examples.delivered_record (PStr "12 ad sets analysed"))
                   _ _ _ _ _ _) "12 ad sets analysed" _ _).
  - intros j. simpl. lia.
  - lia.
  - intros i Hi. destruct i as [|[|[|i]]]; [vm_compute; reflexivity..|lia].
  - vm_compute. discriminate.
  - reflexivity.
  - lia.
  - vm_compute. reflexivity.
  - vm_compute. reflexivity.
Defined.

(** X7. The same run seen from the whole Meta workflow: with a known agent
    and a trigger that succeeds, [k] waiting reads followed by a read that
    finds the record DELIVERED with a string summary give exit code 0, and
    one that finds it BLOCKED gives exit code 2, right after that read. *)
Theorem X7_dispatch_ends_at_terminal_read
    (w : world) (agent_name cycle_id task_id brand_id host skill : string)
    (timeout_seconds : Z) (s : state) (k fuel : nat) (d : gmap string pyval) :
  Meta.AGENT_SKILL_MAP !! agent_name = Some skill ->
  exit_ok (w_ssh w (sshs s)) = true ->
  (forall j, 0 <= w_get_cost w j) ->
  (forall i, (i < k)%nat ->
     Passes.keeps_waiting (Meta.deliverable_of (w_get w (gets s + i)))
       (Passes.elapsed_before w 5 (gets s) i) = true) ->
  Passes.elapsed_before w 5 (gets s) k <= 1000 * timeout_seconds ->
  Meta.deliverable_of (w_get w (gets s + k)) = Some d ->
  (k + 1 <= fuel)%nat ->
  (d !! "status" = Some (PStr "BLOCKED") ->
   Meta.dispatch_and_monitor fuel w agent_name cycle_id task_id brand_id host
     timeout_seconds s
   = Some (Ret 2,
           after_get w task_id
             (Passes.waits w task_id 5 k
                (triggered skill cycle_id task_id brand_id host s)))) /\
  (forall summary,
     d !! "status" = Some (PStr "DELIVERED") ->
     dict_get d "summary" (PStr "[no summary]") = PStr summary ->
     Meta.dispatch_and_monitor fuel w agent_name cycle_id task_id brand_id host
       timeout_seconds s
     = Some (Ret 0,
             after_get w task_id
               (Passes.waits w task_id 5 k
                  (triggered skill cycle_id task_id brand_id host s)))).
Proof.
  intros Hskill Hok Hcost Hwaits Hin Hd Hfuel.
  rewrite dispatch_unfold, Hskill, Hok.
  replace fuel with (k + S (fuel - k - 1))%nat by lia.
  rewrite (poll_reaches w task_id timeout_seconds 5 k _
             (triggered skill cycle_id task_id brand_id host s) Hcost ltac:(lia));
    [|exact Hwaits|exact Hin].
  rewrite while_true_S.
  split.
  - intros Hst.
    rewrite (poll_body_found _ _ _ _ _ _ _ d);
      [| rewrite waits_state; simpl; lia | rewrite waits_state; simpl; exact Hd | eauto].
    rewrite !(dict_get_some d "status" _ _ Hst). reflexivity.
  - intros summary Hst Hsum.
    rewrite (poll_body_found _ _ _ _ _ _ _ d);
      [| rewrite waits_state; simpl; lia | rewrite waits_state; simpl; exact Hd | eauto].
    rewrite !(dict_get_some d "status" _ _ Hst), Hsum. reflexivity.
Qed.

Lemma X7_dispatch_ends_witness :
  Meta.dispatch_and_monitor 4 Scenarios.w_appears "data_placement" Examples.uuid_a
    Examples.uuid_b Examples.uuid_c "192.168.1.100" 20 initial
  = Some (Ret 0,
          after_get Scenarios.w_appears Examples.uuid_b
            (Passes.waits Scenarios.w_appears Examples.uuid_b 5 3
               (triggered "meta-ads-data-placement-analyst" Examples.uuid_a Examples.uuid_b
                  Examples.uuid_c "192.168.1.100" initial))).
Proof.
  refine (proj2 (X7_dispatch_ends_at_terminal_read Scenarios.w_appears "data_placement"
                   Examples.uuid_a Examples.uuid_b Examples.uuid_c "192.168.1.100"
                   "meta-ads-data-placement-analyst" 20 initial 3 4
                   (Examples.delivered_record (PStr "12 ad sets analysed"))
                   _ _ _ _ _ _ _) "12 ad sets analysed" _ _).
  - vm_compute. reflexivity.
  - reflexivity.
  - intros j. simpl. lia.
  - intros i Hi. destruct i as [|[|[|i]]]; [vm_compute; reflexivity..|lia].
  - vm_compute. discriminate.
  - reflexivity.
  - lia.
  - vm_compute. reflexivity.
  - vm_compute. reflexivity.
Defined.

(** ** What an exit code proves *)

Lemma eq_str_status (d : gmap string pyval) (lit : string) :
  lit <> "UNKNOWN" ->
  eq_str (dict_get d "status" (PStr "UNKNOWN")) lit = true ->
  d !! "status" = Some (PStr lit).
Proof.
  unfold dict_get. intros Hlit.
  destruct (d !! "status") as [[|st]|]; cbn -[String.eqb]; try discriminate.
  - intros Heq. apply String.eqb_eq in Heq. congruence.
  - intros Heq. apply String.eqb_eq in Heq. congruence.
Qed.

(** A pass that leaves the loop with a status other than TIMEOUT has just
    read a record in that status. *)
Lemma poll_body_terminal w task_id timeout_seconds poll_interval start_time count s
    status message s' :
  Meta.poll_body w task_id timeout_seconds poll_interval start_time count s
  = Some (Ret (Break (status, message)), s') ->
  status <> "TIMEOUT" ->
  s' = after_get w task_id s /\
  exists d, Meta.deliverable_of (w_get w (gets s)) = Some d /\
            d !! "status" = Some (PStr status).
Proof.
  intros Hbody Hstatus.
  unfold Meta.poll_body, Meta.get_deliverable_status, bind, time_time, requests_get, ret,
    raise, time_sleep in Hbody.
  destruct (1000 * timeout_seconds <? now s - start_time); [congruence|].
  destruct (Meta.deliverable_of (w_get w (gets s))) as [d|] eqn:Hd; simpl in Hbody.
  - destruct (bool_decide (d = ∅)).
    { destruct (30000 <? now s - start_time), (1000 * poll_interval <? 0); congruence. }
    destruct (eq_str (dict_get d "status" (PStr "UNKNOWN")) "DELIVERED") eqn:Hdel.
    { destruct (subscript_to 200 _); [discriminate|].
      injection Hbody as <- _ <-. split; [reflexivity|]. exists d. split; [reflexivity|].
      apply eq_str_status; [discriminate|assumption]. }
    destruct (eq_str (dict_get d "status" (PStr "UNKNOWN")) "BLOCKED") eqn:Hblk.
    { injection Hbody as <- _ <-. split; [reflexivity|]. exists d. split; [reflexivity|].
      apply eq_str_status; [discriminate|assumption]. }
    repeat match type of Hbody with
           | context [if ?c then _ else _] => destruct c
           end; discriminate.
  - destruct (30000 <? now s - start_time), (1000 * poll_interval <? 0); congruence.
Qed.

Lemma poll_terminal fuel w task_id timeout_seconds poll_interval s status message s' :
  Meta.poll_for_completion fuel w task_id timeout_seconds poll_interval s
  = Some (Ret (status, message), s') ->
  status <> "TIMEOUT" ->
  (gets s < gets s')%nat /\
  exists d, Meta.deliverable_of (w_get w (gets s' - 1)) = Some d /\
            d !! "status" = Some (PStr status).
Proof.
  unfold Meta.poll_for_completion, bind, time_time. intros Hrun Hstatus.
  refine (while_true_inv
            (fun _ s1 => (gets s <= gets s1)%nat)
            (fun r s1 => forall st m, r = Ret (st, m) -> st <> "TIMEOUT" ->
               (gets s < gets s1)%nat /\
               exists d, Meta.deliverable_of (w_get w (gets s1 - 1)) = Some d /\
                         d !! "status" = Some (PStr st))
            _ _ fuel 0 s _ s' _ Hrun status message eq_refl Hstatus); [|lia].
  intros count s1 r s2 Hle Hbody.
  destruct r as [[[st m]|]|e].
  - intros st' m' [= <- <-] Hst.
    apply poll_body_terminal in Hbody as [-> (d & Hd & Hdst)]; [|assumption].
    simpl. split; [lia|]. exists d. rewrite Nat.sub_0_r. split; assumption.
  - apply poll_body_continue in Hbody as (_ & _ & _ & Hgets). lia.
  - discriminate.
Qed.

(** X8. An exit code other than 1 from the Meta workflow is backed by the
    task record: the agent name was known, the trigger ssh returned 0, at
    least one read was made, and the last read found the record DELIVERED
    (exit code 0) or BLOCKED (exit code 2). *)
Theorem X8_exit_code_is_backed_by_a_read
    (fuel : nat) (w : world) (agent_name cycle_id task_id brand_id host : string)
    (timeout_seconds : Z) (s s' : state) (code : Z) :
  Meta.dispatch_and_monitor fuel w agent_name cycle_id task_id brand_id host
    timeout_seconds s = Some (Ret code, s') ->
  code <> 1 ->
  is_Some (Meta.AGENT_SKILL_MAP !! agent_name) /\
  exit_ok (w_ssh w (sshs s)) = true /\
  (gets s < gets s')%nat /\
  exists d,
    Meta.deliverable_of (w_get w (gets s' - 1)) = Some d /\
    ((code = 0 /\ d !! "status" = Some (PStr "DELIVERED")) \/
     (code = 2 /\ d !! "status" = Some (PStr "BLOCKED"))).
Proof.
  rewrite dispatch_unfold. intros Hrun Hcode.
  destruct (Meta.AGENT_SKILL_MAP !! agent_name) as [skill|]; [|congruence].
  destruct (exit_ok (w_ssh w (sshs s))); [|congruence].
  destruct (Meta.poll_for_completion _ _ _ _ _ _) as [[[[status message]|e] s1]|] eqn:Hpoll;
    try discriminate.
  injection Hrun as <- <-. simpl in Hcode.
  pose proof (poll_status _ _ _ _ _ _ _ _ _ Hpoll) as [->|[->| ->]];
    [| |exfalso; apply Hcode; reflexivity].
  - apply poll_terminal in Hpoll as [Hlt (d & Hd & Hst)]; [|discriminate].
    split; [eauto|]. split; [reflexivity|]. split; [exact Hlt|].
    exists d. split; [exact Hd|]. left. split; [reflexivity|exact Hst].
  - apply poll_terminal in Hpoll as [Hlt (d & Hd & Hst)]; [|discriminate].
    split; [eauto|]. split; [reflexivity|]. split; [exact Hlt|].
    exists d. split; [exact Hd|]. right. split; [reflexivity|exact Hst].
Qed.

Lemma X8_exit_code_witness :
  is_Some (Meta.AGENT_SKILL_MAP !! "data_placement") /\
  exit_ok (w_ssh Scenarios.w_appears (sshs initial)) = true /\
  (gets initial < gets (mkState 15900 4 1
                          ([EvPatch Examples.uuid_b "IN_PROGRESS"; EvSleep 500;
                            EvSsh "192.168.1.100"
                              (Meta.openclaw_run "meta-ads-data-placement-analyst"
                                 Examples.uuid_a Examples.uuid_b Examples.uuid_c)] ++
                           Passes.wait_events Examples.uuid_b 5 3 ++
                           [EvGet Examples.uuid_b])))%nat /\
  exists d,
    Meta.deliverable_of
      (w_get Scenarios.w_appears
         (gets (mkState 15900 4 1
                  ([EvPatch Examples.uuid_b "IN_PROGRESS"; EvSleep 500;
                    EvSsh "192.168.1.100"
                      (Meta.openclaw_run "meta-ads-data-placement-analyst"
                         Examples.uuid_a Examples.uuid_b Examples.uuid_c)] ++
                   Passes.wait_events Examples.uuid_b 5 3 ++
                   [EvGet Examples.uuid_b])) - 1)) = Some d /\
    ((0 = 0 /\ d !! "status" = Some (PStr "DELIVERED")) \/
     (0 = 2 /\ d !! "status" = Some (PStr "BLOCKED"))).
Proof.
  apply (X8_exit_code_is_backed_by_a_read 4 Scenarios.w_appears "data_placement"
           Examples.uuid_a Examples.uuid_b Examples.uuid_c "192.168.1.100" 20 initial).
  - vm_compute. reflexivity.
  - lia.
Defined.

(** ** Statuses the poller does not know *)

Lemma eq_str_other (d : gmap string pyval) (lit : string) :
  lit <> "UNKNOWN" ->
  d !! "status" <> Some (PStr lit) ->
  eq_str (dict_get d "status" (PStr "UNKNOWN")) lit = false.
Proof.
  intros Hlit Hst. destruct (eq_str _ lit) eqn:Heq; [|reflexivity].
  apply eq_str_status in Heq; [contradiction|assumption].
Qed.

Lemma keeps_waiting_found (d : gmap string pyval) (elapsed : Z) :
  d <> ∅ ->
  d !! "status" <> Some (PStr "DELIVERED") ->
  d !! "status" <> Some (PStr "BLOCKED") ->
  Passes.keeps_waiting (Some d) elapsed = true.
Proof.
  intros Hne Hdel Hblk. unfold Passes.keeps_waiting, Meta.falsy.
  rewrite bool_decide_eq_false_2 by assumption. cbn [default from_option id].
  rewrite (eq_str_other d "DELIVERED"), (eq_str_other d "BLOCKED");
    [reflexivity|discriminate|assumption|discriminate|assumption].
Qed.

(** X9. Only the exact strings DELIVERED and BLOCKED end the polling. When
    every read finds a record whose status is anything else (a status the
    poller does not know, another spelling, [null], or no status at all),
    the polling phase (positive interval, reads that take no negative time)
    waits out the timeout and returns TIMEOUT. *)
Theorem X9_other_statuses_wait_out_the_timeout
    (fuel : nat) (w : world) (task_id : string) (timeout_seconds poll_interval : Z)
    (s : state) :
  (forall k, 0 <= w_get_cost w k) ->
  0 < poll_interval ->
  (forall k, exists d,
     Meta.deliverable_of (w_get w k) = Some d /\ d <> ∅ /\
     d !! "status" <> Some (PStr "DELIVERED") /\
     d !! "status" <> Some (PStr "BLOCKED")) ->
  (Z.to_nat timeout_seconds + 2 <= fuel)%nat ->
  exists polls s',
    Meta.poll_for_completion fuel w task_id timeout_seconds poll_interval s
    = Some (Ret ("TIMEOUT", Meta.timeout_msg timeout_seconds polls), s') /\
    1000 * timeout_seconds < now s' - now s.
Proof.
  intros Hcost Hint Hreads Hfuel.
  destruct (poll_total w task_id timeout_seconds poll_interval s Hcost Hint fuel Hfuel)
    as [[r s'] Hrun].
  rewrite Hrun. revert Hrun. unfold Meta.poll_for_completion, bind, time_time. intros Hrun.
  refine (while_true_inv (fun _ _ => True)
            (fun r s1 => exists polls s2,
               Some (r, s1)
               = Some (Ret ("TIMEOUT", Meta.timeout_msg timeout_seconds polls), s2) /\
               1000 * timeout_seconds < now s2 - now s)
            _ _ fuel 0 s r s' Logic.I Hrun).
  intros count s1 r1 s2 _ Hbody.
  destruct (Z_lt_le_dec (1000 * timeout_seconds) (now s1 - now s)) as [Hlt|Hle].
  - rewrite poll_body_timeout in Hbody by assumption.
    injection Hbody as <- <-. eauto.
  - destruct (Hreads (gets s1)) as (d & Hd & Hne & Hdel & Hblk).
    rewrite poll_body_waits in Hbody;
      [|assumption|rewrite Hd; apply keeps_waiting_found; assumption].
    assert ((1000 * poll_interval <? 0) = false) as Hsleep by (apply Z.ltb_ge; lia).
    rewrite Hsleep in Hbody. injection Hbody as <- <-. exact Logic.I.
Qed.

Lemma X9_other_statuses_witness :
  exists polls s',
    Meta.poll_for_completion 12 Scenarios.w_failed Examples.uuid_b 10 5 initial
    = Some (Ret ("TIMEOUT", Meta.timeout_msg 10 polls), s') /\
    1000 * 10 < now s' - now initial.
Proof.
  apply (X9_other_statuses_wait_out_the_timeout 12 Scenarios.w_failed Examples.uuid_b 10 5
           initial).
  - intros k. simpl. lia.
  - lia.
  - intros k. eexists. split; [reflexivity|].
    split; [|split]; intros H; apply (f_equal (fun m => m !! "status")) in H
      || idtac; vm_compute in H; discriminate.
  - simpl. lia.
Defined.

(** ** Polling a record that is already terminal *)

(** X10. Polling twice in a row against a record that stays BLOCKED, or
    DELIVERED with a string summary, gives the same result both times, each
    time after a single read and without a sleep, whatever the clock and the
    interval are. *)
Theorem X10_polling_a_terminal_record_twice
    (fuel fuel' : nat) (w : world) (task_id : string)
    (timeout_seconds poll_interval timeout_seconds' poll_interval' : Z)
    (s : state) (d : gmap string pyval) :
  0 <= timeout_seconds ->
  0 <= timeout_seconds' ->
  (forall k, Meta.deliverable_of (w_get w k) = Some d) ->
  (d !! "status" = Some (PStr "BLOCKED") \/
   (d !! "status" = Some (PStr "DELIVERED") /\
    exists summary, dict_get d "summary" (PStr "[no summary]") = PStr summary)) ->
  exists result,
    Meta.poll_for_completion (S fuel) w task_id timeout_seconds poll_interval s
    = Some (Ret result, after_get w task_id s) /\
    Meta.poll_for_completion (S fuel') w task_id timeout_seconds' poll_interval'
      (after_get w task_id s)
    = Some (Ret result, after_get w task_id (after_get w task_id s)).
Proof.
  intros Hpos Hpos' Hreads Hterminal.
  assert (Hone : forall f T I s1, 0 <= T ->
    Meta.poll_for_completion (S f) w task_id T I s1
    = match Meta.poll_body w task_id T I (now s1) 0 s1 with
      | Some (Ret (Break a), s2) => Some (Ret a, s2)
      | Some (Ret Continue, s2) =>
          while_true f (Meta.poll_body w task_id T I (now s1)) 1 s2
      | Some (Raise e, s2) => Some (Raise e, s2)
      | None => None
      end) by reflexivity.
  destruct Hterminal as [Hst|[Hst [summary Hsum]]].
  - eexists. rewrite !Hone by assumption.
    rewrite !(poll_body_found _ _ _ _ _ _ _ d) by (rewrite ?Z.sub_diag; eauto; lia).
    rewrite !(dict_get_some d "status" _ _ Hst). split; reflexivity.
  - eexists. rewrite !Hone by assumption.
    rewrite !(poll_body_found _ _ _ _ _ _ _ d) by (rewrite ?Z.sub_diag; eauto; lia).
    rewrite !(dict_get_some d "status" _ _ Hst), Hsum. split; reflexivity.
Qed.

Lemma X10_polling_twice_witness :
  exists result,
    Meta.poll_for_completion 1 Examples.w_delivered Examples.uuid_b 3600 5 initial
    = Some (Ret result, after_get Examples.w_delivered Examples.uuid_b initial) /\
    Meta.poll_for_completion 1 Examples.w_delivered Examples.uuid_b 60 1
      (after_get Examples.w_delivered Examples.uuid_b initial)
    = Some (Ret result,
            after_get Examples.w_delivered Examples.uuid_b
              (after_get Examples.w_delivered Examples.uuid_b initial)).
Proof.
  apply (X10_polling_a_terminal_record_twice 0 0 Examples.w_delivered Examples.uuid_b
           3600 5 60 1 initial (Examples.delivered_record (PStr "12 ad sets analysed"))).
  - lia.
  - lia.
  - intros k. reflexivity.
  - right. split; [vm_compute; reflexivity|]. eexists. vm_compute. reflexivity.
Defined.

(** ** The entry point of the Meta script *)

Lemma poll_events_no_trigger (tr : list event) :
  forallb is_poll_event tr = true -> attempts tr = 0%nat.
Proof.
  unfold attempts. induction tr as [|e tr IH]; [reflexivity|]. simpl.
  intros [He Htr]%andb_true_iff. destruct e; try discriminate; simpl; apply IH, Htr.
Qed.

(** X11. [main] acts only once its checks have passed. With an agent that
    is not among the choices it ends in the argparse error, and with a
    Supabase URL or key that neither the command line nor the environment
    provides (an empty string counts as missing) it exits 1, in both cases
    without a request or an ssh run. Otherwise it exits with the code of
    [dispatch_and_monitor], and every such run that ends holds the write of
    IN_PROGRESS followed by exactly one trigger ssh. Called on its own with
    an unknown agent, [dispatch_and_monitor] instead writes IN_PROGRESS and
    returns 1 without any ssh run. *)
Theorem X11_main_checks_before_acting :
  (forall fuel w args env s,
     Meta.AGENT_SKILL_MAP !! MetaCli.arg_agent args = None ->
     MetaCli.main fuel w args env s = Some (Ret MetaCli.ArgparseError, s)) /\
  (forall fuel w args env s,
     is_Some (Meta.AGENT_SKILL_MAP !! MetaCli.arg_agent args) ->
     MetaCli.opt_falsy
       (MetaCli.opt_or (MetaCli.arg_supabase_url args) (MetaCli.SUPABASE_URL env)) = true \/
     MetaCli.opt_falsy
       (MetaCli.opt_or (MetaCli.arg_supabase_key args) (MetaCli.SUPABASE_SERVICE_KEY env))
     = true ->
     MetaCli.main fuel w args env s = Some (Ret (MetaCli.SysExit 1), s)) /\
  (forall fuel w args env s r s',
     MetaCli.main fuel w args env s = Some (r, s') ->
     trace s' <> trace s ->
     exists polls,
       trace s' = (trace s ++
                   EvPatch (MetaCli.arg_task args) "IN_PROGRESS" :: EvSleep 500 :: polls)%list /\
       attempts polls = 1%nat /\
       ((exists e, r = Raise e) \/
        exists code,
          r = Ret (MetaCli.SysExit code) /\
          Meta.dispatch_and_monitor fuel w (MetaCli.arg_agent args) (MetaCli.arg_cycle args)
            (MetaCli.arg_task args) (MetaCli.arg_brand args) (MetaCli.arg_host args)
            (MetaCli.arg_timeout args) s = Some (Ret code, s'))) /\
  (forall fuel w agent_name cycle_id task_id brand_id host timeout_seconds s,
     Meta.AGENT_SKILL_MAP !! agent_name = None ->
     Meta.dispatch_and_monitor fuel w agent_name cycle_id task_id brand_id host
       timeout_seconds s
     = Some (Ret 1, marked task_id s)).
Proof.
  split; [|split; [|split]].
  - intros fuel w args env s Hnone. unfold MetaCli.main. rewrite Hnone.
    rewrite bool_decide_eq_false_2 by (intros [x Hx]; discriminate). reflexivity.
  - intros fuel w args env s Hknown Hmissing. unfold MetaCli.main.
    rewrite bool_decide_eq_true_2 by assumption. simpl.
    destruct Hmissing as [-> | ->]; [reflexivity|].
    destruct (MetaCli.opt_falsy _); reflexivity.
  - intros fuel w args env s r s' Hrun Hacted. unfold MetaCli.main in Hrun.
    destruct (bool_decide _) eqn:Hknown; simpl in Hrun;
      [|injection Hrun as <- <-; congruence].
    apply bool_decide_eq_true in Hknown as [skill0 Hskill0].
    destruct (MetaCli.opt_falsy _); [injection Hrun as <- <-; congruence|].
    destruct (MetaCli.opt_falsy _); [injection Hrun as <- <-; congruence|].
    unfold bind, ret in Hrun.
    destruct (Meta.dispatch_and_monitor _ _ _ _ _ _ _ _ _) as [[r1 s1]|] eqn:Hdispatch;
      [|discriminate].
    assert (s1 = s') as -> by (destruct r1; congruence).
    pose proof (dispatch_shape _ _ _ _ _ _ _ _ _ _ _ Hdispatch)
      as (rest & Htr & [[Hnone ->]|(skill & polls & Hskill & -> & Hall & _)]);
      [congruence|].
    eexists. split; [exact Htr|]. split.
    + unfold attempts. simpl. f_equal. apply poll_events_no_trigger, Hall.
    + destruct r1 as [code|e].
      * right. exists code. injection Hrun as <-. split; reflexivity.
      * left. exists e. injection Hrun as <-. reflexivity.
  - intros fuel w agent_name cycle_id task_id brand_id host timeout_seconds s Hnone.
    rewrite dispatch_unfold, Hnone. reflexivity.
Qed.

Lemma X11_main_checks_witness :
  MetaCli.main 1 Examples.w_delivered Scenarios.args_unknown_agent Scenarios.env_with_url
    initial = Some (Ret MetaCli.ArgparseError, initial) /\
  MetaCli.main 1 Examples.w_delivered Scenarios.args_empty_url Scenarios.env_empty initial
  = Some (Ret (MetaCli.SysExit 1), initial) /\
  (exists polls,
     trace (mkState 700 1 1
              [EvPatch Examples.uuid_b "IN_PROGRESS"; EvSleep 500;
               EvSsh "192.168.1.100"
                 (Meta.openclaw_run "meta-ads-data-placement-analyst" Examples.uuid_a
                    Examples.uuid_b Examples.uuid_c);
               EvGet Examples.uuid_b])
     = (trace initial ++
        EvPatch (MetaCli.arg_task Scenarios.args_env_url) "IN_PROGRESS" :: EvSleep 500
        :: polls)%list /\
     attempts polls = 1%nat /\
     ((exists e, Ret (MetaCli.SysExit 0) = Raise e) \/
      exists code,
        Ret (MetaCli.SysExit 0) = Ret (MetaCli.SysExit code) /\
        Meta.dispatch_and_monitor 1 Examples.w_delivered
          (MetaCli.arg_agent Scenarios.args_env_url) (MetaCli.arg_cycle Scenarios.args_env_url)
          (MetaCli.arg_task Scenarios.args_env_url) (MetaCli.arg_brand Scenarios.args_env_url)
          (MetaCli.arg_host Scenarios.args_env_url) (MetaCli.arg_timeout Scenarios.args_env_url)
          initial
        = Some (Ret code,
                mkState 700 1 1
                  [EvPatch Examples.uuid_b "IN_PROGRESS"; EvSleep 500;
                   EvSsh "192.168.1.100"
                     (Meta.openclaw_run "meta-ads-data-placement-analyst" Examples.uuid_a
                        Examples.uuid_b Examples.uuid_c);
                   EvGet Examples.uuid_b]))) /\
  Meta.dispatch_and_monitor 1 Examples.w_delivered "data-placement" Examples.uuid_a
    Examples.uuid_b Examples.uuid_c "192.168.1.100" 3600 initial
  = Some (Ret 1, marked Examples.uuid_b initial).
Proof.
  destruct X11_main_checks_before_acting as (Hagent & Hcredentials & Hacts & Hdirect).
  split; [|split; [|split]].
  - apply (Hagent 1%nat Examples.w_delivered Scenarios.args_unknown_agent
             Scenarios.env_with_url initial).
    vm_compute. reflexivity.
  - apply (Hcredentials 1%nat Examples.w_delivered Scenarios.args_empty_url
             Scenarios.env_empty initial).
    + eexists. vm_compute. reflexivity.
    + left. reflexivity.
  - apply (Hacts 1%nat Examples.w_delivered Scenarios.args_env_url Scenarios.env_with_url
             initial (Ret (MetaCli.SysExit 0))).
    + vm_compute. reflexivity.
    + simpl. discriminate.
  - apply (Hdirect 1%nat Examples.w_delivered "data-placement" Examples.uuid_a
             Examples.uuid_b Examples.uuid_c "192.168.1.100" 3600 initial).
    vm_compute. reflexivity.
Defined.

(** ** The Supabase URL *)

Lemma rstrip_slash_app (s : string) :
  MetaCli.rstrip_slash (s +:+ "/") = MetaCli.rstrip_slash s.
Proof.
  induction s as [|c s IH]; [reflexivity|].
  change (String c s +:+ "/") with (String c (s +:+ "/")).
  simpl. rewrite IH. reflexivity.
Qed.

Lemma rstrip_slash_idem (s : string) :
  MetaCli.rstrip_slash (MetaCli.rstrip_slash s) = MetaCli.rstrip_slash s.
Proof.
  induction s as [|c s IH]; [reflexivity|]. simpl.
  destruct (MetaCli.rstrip_slash s) as [|c' kept] eqn:Hkept.
  - destruct (Ascii.eqb c "/") eqn:Hc; [reflexivity|]. simpl. rewrite Hc. reflexivity.
  - change (MetaCli.rstrip_slash (String c (String c' kept)))
      with (match MetaCli.rstrip_slash (String c' kept) with
            | EmptyString => if Ascii.eqb c "/" then EmptyString else String c EmptyString
            | k => String c k
            end).
    rewrite IH. reflexivity.
Qed.

Lemma rstrip_slash_length (s : string) :
  (String.length (MetaCli.rstrip_slash s) <= String.length s)%nat.
Proof.
  induction s as [|c s IH]; [reflexivity|]. simpl.
  destruct (MetaCli.rstrip_slash s) as [|c' kept].
  - destruct (Ascii.eqb c "/"); simpl; lia.
  - simpl in *. lia.
Qed.

Lemma rstrip_slash_only (s : string) :
  exists n, s = MetaCli.rstrip_slash s +:+ Examples.replicate_char n "/".
Proof.
  induction s as [|c s [n IH]]; [exists 0%nat; reflexivity|]. simpl.
  destruct (MetaCli.rstrip_slash s) as [|c' kept].
  - change (EmptyString +:+ Examples.replicate_char n "/")
      with (Examples.replicate_char n "/") in IH.
    destruct (Ascii.eqb c "/") eqn:Hc.
    + apply Ascii.eqb_eq in Hc. subst c. exists (S n). rewrite IH at 1. reflexivity.
    + exists n. rewrite IH at 1. reflexivity.
  - exists n. rewrite IH at 1. reflexivity.
Qed.

Lemma length_append (a b : string) :
  String.length (a +:+ b) = (String.length a + String.length b)%nat.
Proof. induction a as [|c a IH]; simpl; [reflexivity|]. rewrite IH. reflexivity. Qed.

(** X12. The Supabase URL is stored without its trailing slashes and
    otherwise unchanged: what is stored never ends in a slash, storing it
    again changes nothing, and a URL given with one more trailing slash
    leads to the same request URL for a task. *)
Theorem X12_trailing_slashes_do_not_matter
    (supabase_url supabase_key task_id : string) :
  MetaCli.deliverable_url (MetaCli.init (supabase_url +:+ "/") supabase_key) task_id
  = MetaCli.deliverable_url (MetaCli.init supabase_url supabase_key) task_id /\
  MetaCli.supabase_url
    (MetaCli.init (MetaCli.supabase_url (MetaCli.init supabase_url supabase_key))
       supabase_key)
  = MetaCli.supabase_url (MetaCli.init supabase_url supabase_key) /\
  (forall t, MetaCli.supabase_url (MetaCli.init supabase_url supabase_key) <> t +:+ "/") /\
  exists n,
    supabase_url
    = MetaCli.supabase_url (MetaCli.init supabase_url supabase_key)
      +:+ Examples.replicate_char n "/".
Proof.
  unfold MetaCli.deliverable_url, MetaCli.init. simpl.
  split; [rewrite rstrip_slash_app; reflexivity|].
  split; [apply rstrip_slash_idem|].
  split; [|apply rstrip_slash_only].
  intros t Ht.
  pose proof (rstrip_slash_idem supabase_url) as Hidem.
  rewrite Ht, rstrip_slash_app in Hidem.
  pose proof (rstrip_slash_length t) as Hlen.
  rewrite Hidem, length_append in Hlen. simpl in Hlen. lia.
Qed.

(** ** The entry point of the Google script *)

Lemma google_main_unfold uuid_parses w host user agent cycle_id task_id brand_id
    timeout interval s :
  GoogleCli.main uuid_parses w host user agent cycle_id task_id brand_id timeout interval s =
    let self := Google.init host user agent cycle_id task_id brand_id timeout interval in
    if negb (Google.validate_inputs uuid_parses self) then Some (Ret 1, s)
    else if negb (connection_ok (w_ssh w (sshs s))) then
      Some (Ret 1, advance 0 1 [EvSsh (Google.ssh_target self) "echo CONNECTION_OK"] s)
    else
      Some (Ret (if exit_ok (w_ssh w (S (sshs s))) then 0 else 1),
            advance 0 2 [EvSsh (Google.ssh_target self) "echo CONNECTION_OK";
                         EvSsh (Google.ssh_target self) (Google.openclaw_run self)] s).
Proof.
  unfold GoogleCli.main, bind, ret. rewrite run_unfold. cbv zeta.
  destruct (negb (Google.validate_inputs _ _)); [reflexivity|].
  destruct (negb (connection_ok _)); reflexivity.
Qed.

(** X13. The Google script takes a timeout and a poll interval and uses
    neither beyond the check of the 60-second floor: two runs that differ
    only in a timeout of at least 60 seconds and in the poll interval do
    the same and exit alike. *)
Theorem X13_timeout_and_interval_are_only_validated
    (uuid_parses : string -> bool) (w : world)
    (host user agent cycle_id task_id brand_id : string)
    (timeout timeout' interval interval' : Z) (s : state) :
  60 <= timeout ->
  60 <= timeout' ->
  GoogleCli.main uuid_parses w host user agent cycle_id task_id brand_id timeout interval s
  = GoogleCli.main uuid_parses w host user agent cycle_id task_id brand_id timeout'
      interval' s.
Proof.
  intros Hfloor Hfloor'. rewrite !google_main_unfold. cbv zeta.
  unfold Google.validate_inputs, Google.ssh_target, Google.openclaw_run, Google.init. simpl.
  assert ((timeout <? 60) = false) as -> by (apply Z.ltb_ge; lia).
  assert ((timeout' <? 60) = false) as -> by (apply Z.ltb_ge; lia).
  reflexivity.
Qed.

Lemma X13_timeout_and_interval_witness :
  GoogleCli.main Google.canonical_uuid Examples.w_google_ok "192.168.1.100" "agent-runner"
    "data-placement" Examples.uuid_a Examples.uuid_b Examples.uuid_c 1800 30 initial
  = GoogleCli.main Google.canonical_uuid Examples.w_google_ok "192.168.1.100" "agent-runner"
      "data-placement" Examples.uuid_a Examples.uuid_b Examples.uuid_c 60 1 initial.
Proof.
  apply (X13_timeout_and_interval_are_only_validated Google.canonical_uuid
           Examples.w_google_ok "192.168.1.100" "agent-runner" "data-placement"
           Examples.uuid_a Examples.uuid_b Examples.uuid_c 1800 60 30 1 initial); lia.
Defined.

Lemma AGENT_NAMES_full_is_no_key (agent full : string) :
  Google.AGENT_NAMES !! agent = Some full -> Google.AGENT_NAMES !! full = None.
Proof.
  unfold Google.AGENT_NAMES at 1. simpl. intros H.
  repeat (rewrite lookup_insert in H; case_decide;
          [simplify_eq; vm_compute; reflexivity|]).
  rewrite lookup_empty in H. discriminate.
Qed.

(** X14. A short agent name and the full name it stands for are
    interchangeable on the command line of the Google script: both runs
    send the same remote command and exit alike. *)
Theorem X14_short_and_full_name_agree
    (uuid_parses : string -> bool) (w : world)
    (host user agent full cycle_id task_id brand_id : string)
    (timeout interval : Z) (s : state) :
  Google.AGENT_NAMES !! agent = Some full ->
  Google.openclaw_run
    (Google.init host user full cycle_id task_id brand_id timeout interval)
  = Google.openclaw_run
      (Google.init host user agent cycle_id task_id brand_id timeout interval) /\
  GoogleCli.main uuid_parses w host user full cycle_id task_id brand_id timeout interval s
  = GoogleCli.main uuid_parses w host user agent cycle_id task_id brand_id timeout interval s.
Proof.
  intros Hshort. pose proof (AGENT_NAMES_full_is_no_key agent full Hshort) as Hfull.
  rewrite !google_main_unfold. cbv zeta.
  unfold Google.validate_inputs, Google.ssh_target, Google.openclaw_run, Google.init. simpl.
  rewrite Hshort, Hfull. split; reflexivity.
Qed.

Lemma X14_short_and_full_name_witness :
  Google.openclaw_run
    (Google.init "192.168.1.100" "agent-runner" "google-ads-data-placement-analyst"
       Examples.uuid_a Examples.uuid_b Examples.uuid_c 1800 30)
  = Google.openclaw_run
      (Google.init "192.168.1.100" "agent-runner" "data-placement"
         Examples.uuid_a Examples.uuid_b Examples.uuid_c 1800 30) /\
  GoogleCli.main Google.canonical_uuid Examples.w_google_ok "192.168.1.100" "agent-runner"
    "google-ads-data-placement-analyst" Examples.uuid_a Examples.uuid_b Examples.uuid_c
    1800 30 initial
  = GoogleCli.main Google.canonical_uuid Examples.w_google_ok "192.168.1.100" "agent-runner"
      "data-placement" Examples.uuid_a Examples.uuid_b Examples.uuid_c 1800 30 initial.
Proof.
  apply (X14_short_and_full_name_agree Google.canonical_uuid Examples.w_google_ok
           "192.168.1.100" "agent-runner" "data-placement"
           "google-ads-data-placement-analyst" Examples.uuid_a Examples.uuid_b
           Examples.uuid_c 1800 30 initial).
  vm_compute. reflexivity.
Defined.

(** X15. The Google script exits 0 exactly when validation passes, the
    connection test succeeds and the trigger ssh returns 0, and exits 1
    otherwise. It runs ssh not at all when validation fails, once when the
    connection test fails and twice otherwise, and it never reads or writes
    the task record. *)
Theorem X15_google_exit_code
    (uuid_parses : string -> bool) (w : world)
    (host user agent cycle_id task_id brand_id : string)
    (timeout interval : Z) (s : state) :
  exists code s',
    GoogleCli.main uuid_parses w host user agent cycle_id task_id brand_id timeout interval s
    = Some (Ret code, s') /\
    (code = 0 \/ code = 1) /\
    (code = 0 <->
     Google.validate_inputs uuid_parses
       (Google.init host user agent cycle_id task_id brand_id timeout interval) = true /\
     connection_ok (w_ssh w (sshs s)) = true /\
     exit_ok (w_ssh w (S (sshs s))) = true) /\
    gets s' = gets s /\
    (exists tr, trace s' = (trace s ++ tr)%list /\ forallb is_trigger tr = true) /\
    sshs s' = (sshs s +
               if Google.validate_inputs uuid_parses
                    (Google.init host user agent cycle_id task_id brand_id timeout interval)
               then if connection_ok (w_ssh w (sshs s)) then 2 else 1
               else 0)%nat.
Proof.
  rewrite google_main_unfold. cbv zeta.
  destruct (Google.validate_inputs _ _); simpl.
  - destruct (connection_ok (w_ssh w (sshs s))); simpl.
    + destruct (exit_ok (w_ssh w (S (sshs s)))); eexists; eexists;
        (split; [reflexivity|]); simpl.
      * split; [auto|]. split; [tauto|]. split; [reflexivity|]. split; [|reflexivity].
        eexists. split; reflexivity.
      * split; [auto|]. split; [split; [discriminate|intros (_ & _ & ?); discriminate]|].
        split; [reflexivity|]. split; [|reflexivity]. eexists. split; reflexivity.
    + eexists. eexists. split; [reflexivity|]. simpl.
      split; [auto|]. split; [split; [discriminate|intros (_ & ? & _); discriminate]|].
      split; [reflexivity|]. split; [|reflexivity]. eexists. split; reflexivity.
  - eexists. eexists. split; [reflexivity|].
    split; [auto|]. split; [split; [discriminate|intros (? & _); discriminate]|].
    split; [reflexivity|]. split; [|lia]. exists []. rewrite app_nil_r. split; reflexivity.
Qed.

(** ** The connection test *)

Lemma prefix_spec (n h : string) :
  String.prefix n h = true <-> exists b, h = n +:+ b.
Proof.
  revert h. induction n as [|c n IH]; intros h.
  - split; [intros _; exists h; reflexivity|]. intros _. destruct h; reflexivity.
  - destruct h as [|c' h]; simpl.
    + split; [discriminate|intros [b Hb]; discriminate].
    + destruct (ascii_dec c c') as [->|Hne].
      * rewrite IH. split; intros [b Hb]; exists b.
        -- rewrite Hb. reflexivity.
        -- change (String c' n +:+ b) with (String c' (n +:+ b)) in Hb. congruence.
      * split; [discriminate|]. intros [b Hb].
        change (String c n +:+ b) with (String c (n +:+ b)) in Hb. congruence.
Qed.

Lemma contains_unfold (n h : string) :
  contains n h =
    String.prefix n h ||
    match h with
    | EmptyString => false
    | String _ rest => contains n rest
    end.
Proof. destruct h; reflexivity. Qed.

(** [contains] is the substring test. *)
Lemma contains_spec (n h : string) :
  contains n h = true <-> exists a b, h = a +:+ n +:+ b.
Proof.
  split.
  - induction h as [|c h IH]; rewrite contains_unfold;
      intros Hc; apply orb_true_iff in Hc as [Hp|Hc].
    + apply prefix_spec in Hp as [b ->]. exists "", b. reflexivity.
    + discriminate.
    + apply prefix_spec in Hp as [b Hb]. exists "", b. exact Hb.
    + destruct (IH Hc) as (a & b & ->). exists (String c a), b. reflexivity.
  - intros (a & b & ->). induction a as [|c a IH].
    + rewrite contains_unfold.
      assert (String.prefix n (n +:+ b) = true) as Hp by (apply prefix_spec; eauto).
      change ("" +:+ n +:+ b) with (n +:+ b). rewrite Hp. reflexivity.
    + change (String c a +:+ n +:+ b) with (String c (a +:+ n +:+ b)).
      rewrite contains_unfold, IH. apply orb_true_r.
Qed.

(** X16. The connection test never raises and runs ssh exactly once. It
    succeeds exactly when ssh returns 0 and its output holds the marker
    CONNECTION_OK somewhere, so text before the marker (a login banner) and
    after it (the newline) do no harm, while a return code 0 without the
    marker counts as a failure. *)
Theorem X16_connection_test
    (w : world) (self : Google.AgentDispatcher) (s : state) :
  exists ok,
    Google.test_ssh_connection w self s
    = Some (Ret ok, advance 0 1 [EvSsh (Google.ssh_target self) "echo CONNECTION_OK"] s) /\
    (ok = true <->
     exists stdout stderr before after,
       w_ssh w (sshs s) = Completed 0 stdout stderr /\
       stdout = before +:+ "CONNECTION_OK" +:+ after).
Proof.
  unfold Google.test_ssh_connection, bind, ret, subprocess_run_ssh, advance.
  rewrite Z.add_0_r, Nat.add_1_r.
  destruct (w_ssh w (sshs s)) as [rc out err| | |m] eqn:Hssh.
  - destruct ((rc =? 0) && contains "CONNECTION_OK" out) eqn:Hok.
    + exists true. split; [reflexivity|]. split; [intros _|reflexivity].
      apply andb_true_iff in Hok as [Hrc Hin]. apply Z.eqb_eq in Hrc. subst rc.
      apply contains_spec in Hin as (a & b & ->). eauto 6.
    + exists false. split; [reflexivity|]. split; [discriminate|].
      intros (out' & err' & a & b & [= -> -> ->] & ->).
      assert (contains "CONNECTION_OK" (a +:+ "CONNECTION_OK" +:+ b) = true) as Hin
        by (apply contains_spec; eauto).
      rewrite Hin in Hok. discriminate.
  - exists false. split; [reflexivity|]. split; [discriminate|].
    intros (? & ? & ? & ? & ? & _). discriminate.
  - exists false. split; [reflexivity|]. split; [discriminate|].
    intros (? & ? & ? & ? & ? & _). discriminate.
  - exists false. split; [reflexivity|]. split; [discriminate|].
    intros (? & ? & ? & ? & ? & _). discriminate.
Qed.

(** ** The message of a rejected trigger *)

Lemma slice_to_short (n : nat) (s : string) :
  (String.length s <= n)%nat -> slice_to n s = s.
Proof.
  unfold slice_to. revert s. induction n as [|n IH]; intros s Hlen.
  - destruct s; [reflexivity|simpl in Hlen; lia].
  - destruct s as [|c s]; [reflexivity|]. simpl in *. rewrite IH by lia. reflexivity.
Qed.

Lemma slice_to_length (n : nat) (s : string) : (String.length (slice_to n s) <= n)%nat.
Proof.
  unfold slice_to. revert s. induction n as [|n IH]; intros s.
  - destruct s; simpl; lia.
  - destruct s as [|c s]; simpl; [lia|]. specialize (IH s). lia.
Qed.

(** X17. When the trigger ssh of the Meta script returns a nonzero code, the
    failure message holds what ssh wrote to stderr, or to stdout when stderr
    is empty, cut after 200 characters: the message is never longer than 212
    characters, and an output of at most 200 characters is kept whole. *)
Theorem X17_rejection_message
    (w : world) (agent_name cycle_id task_id brand_id host skill : string)
    (s : state) (rc : Z) (out err : string) :
  Meta.AGENT_SKILL_MAP !! agent_name = Some skill ->
  w_ssh w (sshs s) = Completed rc out err ->
  rc <> 0 ->
  exists message,
    Meta.trigger_agent_ssh w agent_name cycle_id task_id brand_id host s
    = Some (Ret (false, message),
            advance 0 1 [EvSsh host (Meta.openclaw_run skill cycle_id task_id brand_id)] s) /\
    (String.length message <= 212)%nat /\
    (err <> "" -> (String.length err <= 200)%nat -> message = "SSH failed: " +:+ err) /\
    (err = "" -> (String.length out <= 200)%nat -> message = "SSH failed: " +:+ out).
Proof.
  intros Hskill Hssh Hrc. apply Z.eqb_neq in Hrc.
  unfold Meta.trigger_agent_ssh, bind, ret, subprocess_run_ssh, advance.
  rewrite Hskill, Hssh, Hrc, Z.add_0_r, Nat.add_1_r.
  eexists. split; [reflexivity|]. split; [|split].
  - rewrite length_append. pose proof (slice_to_length 200 (str_or err out)). simpl. lia.
  - intros Hne Hlen. destruct err; [congruence|].
    unfold str_or. rewrite slice_to_short by assumption. reflexivity.
  - intros -> Hlen. unfold str_or. rewrite slice_to_short by assumption. reflexivity.
Qed.

Lemma X17_rejection_message_witness :
  exists message,
    Meta.trigger_agent_ssh Examples.w_rejected "data_placement" Examples.uuid_a
      Examples.uuid_b Examples.uuid_c "192.168.1.100" initial
    = Some (Ret (false, message),
            advance 0 1
              [EvSsh "192.168.1.100"
                 (Meta.openclaw_run "meta-ads-data-placement-analyst" Examples.uuid_a
                    Examples.uuid_b Examples.uuid_c)] initial) /\
    (String.length message <= 212)%nat /\
    ("openclaw: unknown skill" <> "" ->
     (String.length "openclaw: unknown skill" <= 200)%nat ->
     message = "SSH failed: " +:+ "openclaw: unknown skill") /\
    ("openclaw: unknown skill" = "" ->
     (String.length "" <= 200)%nat -> message = "SSH failed: " +:+ "").
Proof.
  apply (X17_rejection_message Examples.w_rejected "data_placement" Examples.uuid_a
           Examples.uuid_b Examples.uuid_c "192.168.1.100" "meta-ads-data-placement-analyst"
           initial 1 "" "openclaw: unknown skill");
    [vm_compute; reflexivity | reflexivity | lia].
Defined.

(** ** One failed read after the thirty seconds *)

(** X18. After [k] waiting passes, a single read that comes back empty (a
    failed request, an answer other than 200, no row) more than thirty
    seconds into the polling phase ends it at once with TIMEOUT and the
    not-found message, although the timeout has not run out and whatever the
    earlier reads found. *)
Theorem X18_one_empty_read_after_grace_ends_polling
    (w : world) (task_id : string) (timeout_seconds poll_interval : Z)
    (s : state) (k fuel : nat) :
  (forall j, 0 <= w_get_cost w j) ->
  0 <= poll_interval ->
  (forall i, (i < k)%nat ->
     Passes.keeps_waiting (Meta.deliverable_of (w_get w (gets s + i)))
       (Passes.elapsed_before w poll_interval (gets s) i) = true) ->
  30000 < Passes.elapsed_before w poll_interval (gets s) k <= 1000 * timeout_seconds ->
  Meta.falsy (Meta.deliverable_of (w_get w (gets s + k))) = true ->
  (k + 1 <= fuel)%nat ->
  Meta.poll_for_completion fuel w task_id timeout_seconds poll_interval s
  = Some (Ret ("TIMEOUT", Meta.NOT_FOUND_MSG),
          after_get w task_id (Passes.waits w task_id poll_interval k s)).
Proof.
  intros Hcost Hint Hwaits [Hgrace Hin] Hempty Hfuel.
  replace fuel with (k + S (fuel - k - 1))%nat by lia.
  rewrite (poll_reaches w task_id timeout_seconds poll_interval k _ s Hcost Hint Hwaits Hin).
  rewrite while_true_S, poll_body_absent;
    [| rewrite waits_state; simpl; lia | assumption
     | rewrite waits_state; simpl; exact Hempty].
  rewrite waits_state at 1. simpl.
  assert ((30000 <? now s + Passes.elapsed_before w poll_interval (gets s) k - now s) = true)
    as -> by (apply Z.ltb_lt; lia).
  reflexivity.
Qed.

Lemma X18_one_empty_read_witness :
  Meta.poll_for_completion 8 Scenarios.w_one_failed_read Examples.uuid_b 3600 5 initial
  = Some (Ret ("TIMEOUT", Meta.NOT_FOUND_MSG),
          after_get Scenarios.w_one_failed_read Examples.uuid_b
            (Passes.waits Scenarios.w_one_failed_read Examples.uuid_b 5 7 initial)).
Proof.
  apply (X18_one_empty_read_after_grace_ends_polling Scenarios.w_one_failed_read
           Examples.uuid_b 3600 5 initial 7 8).
  - intros j. simpl. lia.
  - lia.
  - intros i Hi. do 7 (destruct i as [|i]; [vm_compute; reflexivity|]). lia.
  - vm_compute. split; [reflexivity|discriminate].
  - reflexivity.
  - lia.
Defined.
